(** * chihaya: middleware/varinterval

    A shallow embedding of [middleware/varinterval/varinterval.go] and the
    properties of its configuration check, constructor and three hook entry
    points.

    Go's [float32] is IEEE-754 binary32; it is modelled by the Standard
    Library's [spec_float] at precision 24 and maximal exponent 128, with
    its own comparison and division.  [time.Duration] is an [int64]; Go's
    [int] is taken at its 64-bit width (amd64, arm64).  Both are modelled as
    [Z] with the two's-complement wrap-around written out. *)

From Stdlib Require Import ZArith Bool Lia QArith Qround.
From Stdlib Require Import Floats.SpecFloat.

Local Open Scope Z_scope.

(** ** 64-bit signed integers: [int], [int64], [time.Duration] *)

Module Int64.

Definition min_int : Z := - 2 ^ 63.
Definition max_int : Z := 2 ^ 63 - 1.

Definition in_range (z : Z) : Prop := min_int <= z <= max_int.

(** Two's-complement reduction of a mathematical integer. *)
Definition wrap (z : Z) : Z := (z + 2 ^ 63) mod 2 ^ 64 - 2 ^ 63.

Definition add (a b : Z) : Z := wrap (a + b).
Definition sub (a b : Z) : Z := wrap (a - b).
Definition mul (a b : Z) : Z := wrap (a * b).

End Int64.

(** ** [time.Duration]: a count of nanoseconds in an [int64] *)

Module Duration.

(** [time.Second]. *)
Definition Second : Z := 1000000000.

(** The largest number of whole seconds a [time.Duration] can hold. *)
Definition max_seconds : Z := 9223372036.

End Duration.

(** ** [float32] *)

Module Float32.

Definition prec : Z := 24.
Definition emax : Z := 128.

Definition float32 : Type := spec_float.

(** Conversion [float32(v)] of an integer, rounding to nearest even. *)
Definition of_int (v : Z) : float32 := binary_normalize prec emax v 0 false.

Definition zero : float32 := of_int 0.
Definition one : float32 := of_int 1.
(** The constant [1 << 24] at type [float32]. *)
Definition two24 : float32 := of_int (Z.shiftl 1 24).

Definition div (x y : float32) : float32 := SFdiv prec emax x y.

(** Go's [==], [<], [<=], [>] on [float32]: every comparison with a NaN
    is false. *)
Definition eqb (x y : float32) : bool := SFeqb x y.
Definition ltb (x y : float32) : bool := SFltb x y.
Definition leb (x y : float32) : bool := SFleb x y.
Definition gtb (x y : float32) : bool := SFltb y x.

Definition is_nan (x : float32) : bool :=
  match x with S754_nan => true | _ => false end.

Definition is_finite (x : float32) : bool :=
  match x with
  | S754_finite _ _ _ | S754_zero _ => true
  | _ => false
  end.

(** A [float32] datum is a canonical binary32 value. *)
Definition valid (x : float32) : Prop := valid_binary prec emax x = true.

(** The rational denoted by a finite value (and [0] for the others). *)
Definition to_Q (x : float32) : Q :=
  match x with
  | S754_finite s m e =>
      let n := if s then Zneg m else Zpos m in
      match e with
      | Zneg k => Qmake n (2 ^ k)
      | _ => inject_Z (n * 2 ^ e)
      end
  | _ => 0%Q
  end.

(** The same number as a multiple of [2^-149], the smallest positive
    binary32 value. *)
Definition scaled (x : float32) : Z :=
  match x with
  | S754_finite s m e => (if s then Zneg m else Zpos m) * 2 ^ (e + 149)
  | _ => 0
  end.

End Float32.

Import Float32.

(** ** Errors and configuration *)

Inductive error : Type :=
| ErrInvalidModifyResponseProbability
| ErrInvalidMaxIncreaseDelta.

Record Config : Type := {
  ModifyResponseProbability : float32;
  MaxIncreaseDelta : Z;
  ModifyMinInterval : bool
}.

Definition checkConfig (cfg : Config) : option error :=
  if leb (ModifyResponseProbability cfg) zero
     || gtb (ModifyResponseProbability cfg) one
  then Some ErrInvalidModifyResponseProbability
  else if MaxIncreaseDelta cfg <=? 0
  then Some ErrInvalidMaxIncreaseDelta
  else None.

(** The hook owns its configuration; the embedded [sync.Mutex] is never
    locked by any method and carries no state of the model. *)
Record hook : Type := { cfg : Config }.

Definition New (c : Config) : option hook * option error :=
  match checkConfig c with
  | Some err => (None, Some err)
  | None => (Some {| cfg := c |}, None)
  end.

(** ** The announce response

    [bittorrent.AnnounceResponse] carries the two interval fields the hook
    writes to, both of type [time.Duration], next to fields the hook never
    reads or writes (peer lists, swarm counters); these are kept as one
    field of an arbitrary type. *)

Record AnnounceResponse (Rest : Type) : Type := {
  Interval : Z;
  MinInterval : Z;
  OtherFields : Rest
}.

Arguments Interval {Rest} _.
Arguments MinInterval {Rest} _.
Arguments OtherFields {Rest} _.
Arguments Build_AnnounceResponse {Rest} _ _ _.

(** [resp.Interval += d]. *)
Definition add_Interval {Rest} (d : Z) (resp : AnnounceResponse Rest)
  : AnnounceResponse Rest :=
  {| Interval := Int64.add (Interval resp) d;
     MinInterval := MinInterval resp;
     OtherFields := OtherFields resp |}.

(** [resp.MinInterval += d]. *)
Definition add_MinInterval {Rest} (d : Z) (resp : AnnounceResponse Rest)
  : AnnounceResponse Rest :=
  {| Interval := Interval resp;
     MinInterval := Int64.add (MinInterval resp) d;
     OtherFields := OtherFields resp |}.

(** ** The hook's entry points

    The request and response types of the [bittorrent] package, the call
    context, and the two functions of [middleware/pkg/random] are not part
    of this package: the entry points are parameterised by them.  A method
    taking a pointer to its response returns, next to its Go results, the
    response as the call leaves it. *)

Section Hook.

Variable context : Type.
Variable AnnounceRequest : Type.
Variable Rest : Type.
Variables ScrapeRequest ScrapeResponse ApiRequest ApiResponse : Type.

(** [random.DeriveEntropyFromRequest]: the seed pair of a request. *)
Variable DeriveEntropyFromRequest : AnnounceRequest -> Z * Z.

(** [random.Intn s0 s1 n]: a value and the advanced seed pair. *)
Variable Intn : Z -> Z -> Z -> Z * Z * Z.

Definition HandleAnnounce (h : hook) (ctx : context)
    (req : AnnounceRequest) (resp : AnnounceResponse Rest)
  : (context * option error) * AnnounceResponse Rest :=
  let '(s0, s1) := DeriveEntropyFromRequest req in
  let '(v, s0, s1) := Intn s0 s1 (Z.shiftl 1 24) in
  let p := div (of_int v) two24 in
  if eqb (ModifyResponseProbability (cfg h)) one
     || ltb p (ModifyResponseProbability (cfg h))
  then
    let '(v, _, _) := Intn s0 s1 (MaxIncreaseDelta (cfg h)) in
    let addSeconds := Int64.mul (Int64.add v 1) Duration.Second in
    let resp := add_Interval addSeconds resp in
    let resp :=
      if ModifyMinInterval (cfg h)
      then add_MinInterval addSeconds resp
      else resp in
    ((ctx, None), resp)
  else ((ctx, None), resp).

Definition HandleScrape (h : hook) (ctx : context)
    (req : ScrapeRequest) (resp : ScrapeResponse)
  : (context * option error) * ScrapeResponse :=
  ((ctx, None), resp).

Definition HandleApi (h : hook) (ctx : context)
    (req : ApiRequest) (resp : ApiResponse)
  : (context * option error) * ApiResponse :=
  ((ctx, None), resp).

End Hook.

(** ** Vocabulary of the statements

    The intermediate values of [HandleAnnounce], named so that the
    properties below can speak about them. *)

(** What [HandleAnnounce] relies on from [random.Intn]: for a positive
    bound, the drawn value lies in [[0, n)]. *)
Definition Intn_contract (Intn : Z -> Z -> Z -> Z * Z * Z) : Prop :=
  forall s0 s1 n, 0 < n -> 0 <= fst (fst (Intn s0 s1 n)) < n.

(** [p := float32(v) / (1 << 24)]. *)
Definition probability_of (v : Z) : float32 := div (of_int v) two24.

(** The shape of [float32(v) / (1 << 24)] for a draw [v] in [[0, 2^24)]:
    a positive zero, or a positive canonical value below one. *)
Inductive probability_shape (v : Z) : float32 -> Prop :=
| shape_zero : v = 0 -> probability_shape v (S754_zero false)
| shape_finite (M k : positive) :
    24 <= Zpos k <= 47 ->
    Zpos (digits2_pos M) = prec ->
    Zpos M * 2 ^ 24 = v * 2 ^ Zpos k ->
    probability_shape v (S754_finite false M (Zneg k)).

(** The condition of the [if]: [prob == 1 || p < prob]. *)
Definition modify_condition (prob : float32) (v : Z) : bool :=
  eqb prob one || ltb (probability_of v) prob.

(** [addSeconds := time.Duration(v+1) * time.Second]. *)
Definition addSeconds_of (v : Z) : Z :=
  Int64.mul (Int64.add v 1) Duration.Second.

(** The two assignments of the modifying branch. *)
Definition apply_delta {Rest} (both : bool) (d : Z)
    (resp : AnnounceResponse Rest) : AnnounceResponse Rest :=
  let resp := add_Interval d resp in
  if both then add_MinInterval d resp else resp.

(** The number of first draws, out of the [2^24] possible ones, that lie
    below a probability: the probability times [2^24], rounded up. *)
Definition threshold (prob : float32) : Z :=
  Qceiling (to_Q prob * inject_Z 16777216).

(** A duration that [n] more seconds do not carry past the largest
    [int64]. *)
Definition headroom (n z : Z) : Prop :=
  Int64.min_int <= z /\ z + n * Duration.Second <= Int64.max_int.

Section Draws.

Variable AnnounceRequest : Type.
Variable DeriveEntropyFromRequest : AnnounceRequest -> Z * Z.
Variable Intn : Z -> Z -> Z -> Z * Z * Z.

(** The probability draw: [random.Intn(s0, s1, 1<<24)] on the seed pair
    of the request. *)
Definition first_draw (req : AnnounceRequest) : Z * Z * Z :=
  let '(s0, s1) := DeriveEntropyFromRequest req in
  Intn s0 s1 (Z.shiftl 1 24).

(** The delta draw: [random.Intn(s0, s1, MaxIncreaseDelta)] on the seed
    pair the probability draw returned. *)
Definition second_draw (n : Z) (req : AnnounceRequest) : Z * Z * Z :=
  let '(_, s0, s1) := first_draw req in
  Intn s0 s1 n.

(** Whether [HandleAnnounce] enters the modifying branch. *)
Definition decides_to_modify (h : hook) (req : AnnounceRequest) : bool :=
  modify_condition (ModifyResponseProbability (cfg h))
                   (fst (fst (first_draw req))).

(** The duration the modifying branch adds. *)
Definition delta_of (h : hook) (req : AnnounceRequest) : Z :=
  addSeconds_of (fst (fst (second_draw (MaxIncreaseDelta (cfg h)) req))).

End Draws.

(** ** An instance of the external collaborators *)

Module Model.

(** Modelled from the spec: the identifying fields of
    [bittorrent.AnnounceRequest] (requested resource identity and
    requester identity), whose declaration is outside this package. *)
Record Request : Type := { InfoHash : Z; PeerID : Z }.

(** Modelled from the spec: [random.DeriveEntropyFromRequest], a pure
    function from the identifying fields of a request to a pair of 64-bit
    seeds.  Its source is outside this package. *)
Definition DeriveEntropyFromRequest (r : Request) : Z * Z :=
  (InfoHash r mod 2 ^ 64, PeerID r mod 2 ^ 64).

(** Modelled from the spec: [random.Intn], a pure function from a seed pair
    and an exclusive upper bound to an integer in [[0, bound)] and the
    advanced seed pair.  Its source is outside this package. *)
Definition Intn (s0 s1 n : Z) : Z * Z * Z :=
  (((s0 + s1) mod 2 ^ 63) mod n, s1, (s0 + s1) mod 2 ^ 64).

Definition response (i m : Z) : AnnounceResponse unit :=
  {| Interval := i; MinInterval := m; OtherFields := tt |}.

Definition config (p : float32) (n : Z) (b : bool) : Config :=
  {| ModifyResponseProbability := p;
     MaxIncreaseDelta := n;
     ModifyMinInterval := b |}.

(** The [float32] nearest to 0.5. *)
Definition half : float32 := S754_finite false 8388608 (-24).

Definition HandleAnnounce :=
  HandleAnnounce unit Request unit DeriveEntropyFromRequest Intn.

(** Hooks and requests the statements are instantiated at. *)
Definition hook_always : hook := {| cfg := config one 5 true |}.
Definition hook_half : hook := {| cfg := config half 5 false |}.
Definition hook_huge : hook := {| cfg := config one Int64.max_int false |}.

Definition request_a : Request := {| InfoHash := 7; PeerID := 12345 |}.
Definition request_b : Request := {| InfoHash := 7; PeerID := 8388600 |}.
Definition request_c : Request := {| InfoHash := 0; PeerID := 4611686018 |}.
Definition request_d : Request := {| InfoHash := 8; PeerID := 8388600 |}.

(** A request whose second draw is [2^55 - 1] under a maximal delta above
    it: one more second is [2^55] seconds, a multiple of [2^64]
    nanoseconds. *)
Definition request_e : Request := {| InfoHash := 1; PeerID := 2 ^ 54 - 1 |}.

(** A hook around a NaN probability, and requests whose first draws are the
    smallest and the largest possible. *)
Definition hook_nan : hook := {| cfg := config S754_nan 5 true |}.
Definition request_zero : Request := {| InfoHash := 0; PeerID := 0 |}.
Definition request_top : Request := {| InfoHash := 0; PeerID := 16777215 |}.

End Model.

(** * Properties *)

(** ** Facts on 64-bit arithmetic *)

Module Int64Facts.
Import Int64.

Lemma wrap_in_range (z : Z) : in_range (wrap z).
Proof.
  unfold in_range, wrap, min_int, max_int.
  pose proof (Z.mod_pos_bound (z + 2 ^ 63) (2 ^ 64)). lia.
Qed.

Lemma wrap_small (z : Z) : in_range z -> wrap z = z.
Proof.
  unfold in_range, wrap, min_int, max_int. intros H.
  rewrite Z.mod_small; lia.
Qed.

Lemma wrap_wrap_add_l (a b : Z) : wrap (wrap a + b) = wrap (a + b).
Proof.
  unfold wrap.
  replace ((a + 2 ^ 63) mod 2 ^ 64 - 2 ^ 63 + b + 2 ^ 63)
    with ((a + 2 ^ 63) mod 2 ^ 64 + b) by lia.
  rewrite Zplus_mod_idemp_l. f_equal. f_equal. lia.
Qed.

Lemma sub_add (i d : Z) : sub (add i d) i = wrap d.
Proof.
  unfold sub, add.
  replace (wrap (i + d) - i) with (wrap (i + d) + - i) by lia.
  rewrite wrap_wrap_add_l. f_equal. lia.
Qed.

(** Subtracting the old value from the new one recovers what was added. *)
Lemma sub_add_cancel (i d : Z) : in_range d -> sub (add i d) i = d.
Proof.
  intros Hd. rewrite sub_add. now apply wrap_small.
Qed.

(** Adding a representable non-zero amount changes the value. *)
Lemma add_changes (i d : Z) : in_range d -> d <> 0 -> add i d <> i.
Proof.
  intros Hd Hnz Heq. apply Hnz.
  rewrite <- (sub_add_cancel i d Hd), Heq.
  unfold sub. rewrite Z.sub_diag. reflexivity.
Qed.
End Int64Facts.

(** Bounds in nanoseconds and seconds reduce to linear arithmetic once the
    constants are unfolded. *)
Ltac int64_bounds :=
  unfold Int64.in_range, Int64.min_int, Int64.max_int,
    Duration.max_seconds, Duration.Second in *;
  lia.

(** ** Facts on binary32 rounding *)

Module Float32Facts.

Lemma iter_xO_spec (m k : positive) :
  Zpos (Pos.iter xO m k) = Zpos m * 2 ^ Zpos k
  /\ Zpos (digits2_pos (Pos.iter xO m k)) = Zpos (digits2_pos m) + Zpos k.
Proof.
  induction k as [|k [IHv IHd]] using Pos.peano_ind.
  - simpl. split; lia.
  - rewrite Pos.iter_succ. rewrite Pos2Z.inj_succ, Z.pow_succ_r by lia.
    split.
    + rewrite Pos2Z.inj_xO, IHv. lia.
    + simpl digits2_pos. rewrite Pos2Z.inj_succ, IHd. lia.
Qed.

Lemma digits2_pos_bounds (m : positive) :
  2 ^ (Zpos (digits2_pos m) - 1) <= Zpos m < 2 ^ Zpos (digits2_pos m).
Proof.
  induction m as [m IH|m IH|]; simpl digits2_pos.
  - rewrite Pos2Z.inj_succ, Z.pow_succ_r by lia.
    replace (Z.succ (Zpos (digits2_pos m)) - 1)
      with (Z.succ (Zpos (digits2_pos m) - 1)) by lia.
    rewrite Z.pow_succ_r by lia. lia.
  - rewrite Pos2Z.inj_succ, Z.pow_succ_r by lia.
    replace (Z.succ (Zpos (digits2_pos m)) - 1)
      with (Z.succ (Zpos (digits2_pos m) - 1)) by lia.
    rewrite Z.pow_succ_r by lia. lia.
  - simpl. lia.
Qed.

Lemma digits2_pos_le (m : positive) (n : Z) :
  Zpos m < 2 ^ n -> Zpos (digits2_pos m) <= n.
Proof.
  intros H. destruct (digits2_pos_bounds m) as [Hlo _].
  destruct (Z_le_gt_dec (Zpos (digits2_pos m)) n) as [|Hgt]; [assumption|].
  exfalso.
  assert (0 <= n) by (destruct n; simpl in H; lia).
  assert (2 ^ n <= 2 ^ (Zpos (digits2_pos m) - 1))
    by (apply Z.pow_le_mono_r; lia).
  lia.
Qed.

(** A mantissa of exactly [prec] digits with an exponent in the normal
    range is left as it is by rounding. *)
Lemma binary_round_aux_exact (s : bool) (m : positive) (e : Z) :
  Zpos (digits2_pos m) = prec ->
  -149 <= e <= 104 ->
  binary_round_aux prec emax s (Zpos m) e loc_Exact = S754_finite s m e.
Proof.
  intros Hd He.
  assert (Hz : fexp prec emax (Zdigits2 (Zpos m) + e) - e = 0).
  { simpl Zdigits2. rewrite Hd. unfold fexp, emin, prec, emax. lia. }
  unfold binary_round_aux, shr_fexp.
  rewrite Hz.
  cbv beta iota delta
    [shr shr_record_of_loc shr_m loc_of_shr_record round_nearest_even].
  rewrite Hz.
  cbv beta iota delta [shr shr_record_of_loc shr_m].
  replace (e <=? emax - prec) with true
    by (symmetry; apply Z.leb_le; unfold prec, emax; lia).
  reflexivity.
Qed.

Lemma fexp_normal (z : Z) :
  -125 <= z -> fexp prec emax z = z - 24.
Proof. unfold fexp, emin, prec, emax. lia. Qed.

Lemma of_int_pos (m : positive) :
  Zpos m < 2 ^ 24 ->
  exists M : positive,
    of_int (Zpos m) = S754_finite false M (Zpos (digits2_pos m) - 24)
    /\ Zpos M = Zpos m * 2 ^ (24 - Zpos (digits2_pos m))
    /\ Zpos (digits2_pos M) = prec.
Proof.
  intros Hm.
  pose proof (digits2_pos_le m 24 Hm) as Hd.
  assert (Hd1 : 1 <= Zpos (digits2_pos m)) by lia.
  unfold of_int, binary_normalize, binary_round, shl_align.
  rewrite fexp_normal by lia.
  destruct (Zpos (digits2_pos m) + 0 - 24 - 0) as [|k|k] eqn:E; try lia.
  - exists m. replace (Zpos (digits2_pos m) - 24) with 0 by lia.
    repeat split.
    + apply binary_round_aux_exact; unfold prec; lia.
    + replace (24 - Zpos (digits2_pos m)) with 0 by lia. lia.
    + unfold prec; lia.
  - destruct (iter_xO_spec m k) as [Hv Hdig].
    exists (Pos.iter xO m k).
    replace (Zpos (digits2_pos m) + 0 - 24)
      with (Zpos (digits2_pos m) - 24) by lia.
    repeat split.
    + apply binary_round_aux_exact; unfold prec; lia.
    + rewrite Hv. f_equal. f_equal. lia.
    + unfold prec; lia.
Qed.

Lemma div_eucl_pow2 (M : positive) :
  Z.div_eucl (Z.shiftl (Zpos M) 24) 8388608 = (Zpos M~0, 0).
Proof.
  rewrite Z.shiftl_mul_pow2 by lia.
  pose proof (Z.div_eucl_eq (Zpos M * 2 ^ 24) 8388608) as Heq.
  pose proof (Z.mod_pos_bound (Zpos M * 2 ^ 24) 8388608) as Hb.
  unfold Z.modulo in Hb.
  destruct (Z.div_eucl (Zpos M * 2 ^ 24) 8388608) as [q r].
  assert (q = Zpos M~0 /\ r = 0) as [-> ->]; [|reflexivity].
  rewrite Pos2Z.inj_xO. lia.
Qed.

(** One surplus low bit that is zero is shifted out without rounding. *)
Lemma binary_round_aux_even (s : bool) (M : positive) (e : Z) :
  Zpos (digits2_pos M) = prec ->
  -150 <= e <= 103 ->
  binary_round_aux prec emax s (Zpos M~0) e loc_Exact
  = S754_finite s M (e + 1).
Proof.
  intros Hd He.
  assert (H1 : fexp prec emax (Zdigits2 (Zpos M~0) + e) - e = 1).
  { simpl Zdigits2. rewrite Pos2Z.inj_succ, Hd.
    unfold fexp, emin, prec, emax. lia. }
  assert (H0 : fexp prec emax (Zdigits2 (Zpos M) + (e + 1)) - (e + 1) = 0).
  { simpl Zdigits2. rewrite Hd. unfold fexp, emin, prec, emax. lia. }
  unfold binary_round_aux, shr_fexp.
  rewrite H1.
  cbv beta iota zeta delta
    [shr shr_record_of_loc shr_m loc_of_shr_record round_nearest_even
     iter_pos shr_1 orb].

  rewrite H0.
  cbv beta iota zeta delta [shr shr_record_of_loc shr_m].
  replace (e + 1 <=? emax - prec) with true
    by (symmetry; apply Z.leb_le; unfold prec, emax; lia).
  reflexivity.
Qed.

Lemma div_two24_exact (M : positive) (e : Z) :
  Zpos (digits2_pos M) = prec ->
  -23 <= e <= 0 ->
  div (S754_finite false M e) two24 = S754_finite false M (e - 24).
Proof.
  intros Hd He.
  change two24 with (S754_finite false 8388608 1).
  unfold div, SFdiv, SFdiv_core_binary.
  change (Zdigits2 (Zpos M)) with (Zpos (digits2_pos M)).
  change (Zdigits2 8388608) with 24.
  rewrite Hd.
  replace (Z.min (fexp prec emax (prec + e - (24 + 1))) (e - 1))
    with (e - 25)
    by (unfold fexp, emin, prec, emax; lia).
  replace (e - 1 - (e - 25)) with 24 by lia.
  cbv iota.
  rewrite div_eucl_pow2.
  change (new_location 8388608 0) with loc_Exact.
  cbv beta iota. change (xorb false false) with false.
  rewrite binary_round_aux_even by (assumption || lia).
  f_equal. lia.
Qed.

Lemma probability_of_pos (m : positive) :
  Zpos m < 2 ^ 24 ->
  exists M : positive,
    probability_of (Zpos m)
    = S754_finite false M (Zpos (digits2_pos m) - 48)
    /\ Zpos M = Zpos m * 2 ^ (24 - Zpos (digits2_pos m))
    /\ Zpos (digits2_pos M) = prec.
Proof.
  intros Hm.
  pose proof (digits2_pos_le m 24 Hm) as Hd.
  destruct (of_int_pos m Hm) as (M & Hof & Hv & HdM).
  exists M. unfold probability_of. rewrite Hof.
  rewrite div_two24_exact by (assumption || lia).
  repeat split; try assumption. f_equal. lia.
Qed.

End Float32Facts.

(** ** The probability value *)

Module ProbabilityFacts.
Import Float32Facts.

Lemma probability_of_shape (v : Z) :
  0 <= v < 2 ^ 24 -> probability_shape v (probability_of v).
Proof.
  intros [Hlo Hhi]. destruct v as [|m|m]; [|clear Hlo|lia].
  - now constructor.
  - destruct (probability_of_pos m Hhi) as (M & Hp & Hv & Hd).
    pose proof (digits2_pos_le m 24 Hhi) as Hle.
    rewrite Hp.
    destruct (Zpos (digits2_pos m) - 48) as [|k|k] eqn:E; try lia.
    apply shape_finite; [lia|assumption|].
    rewrite Hv, <- Z.mul_assoc, <- Z.pow_add_r by lia.
    f_equal. f_equal. lia.
Qed.

Lemma probability_value (v : Z) :
  0 <= v < 2 ^ 24 -> (to_Q (probability_of v) == v # 16777216)%Q.
Proof.
  intros Hv. destruct (probability_of_shape v Hv) as [->|M k Hk Hd Heq].
  - reflexivity.
  - unfold to_Q, Qeq. cbn [Qnum Qden].
    rewrite Pos2Z.inj_pow. exact Heq.
Qed.

Lemma probability_valid (v : Z) :
  0 <= v < 2 ^ 24 -> valid (probability_of v).
Proof.
  intros Hv. destruct (probability_of_shape v Hv) as [->|M k Hk Hd Heq].
  - reflexivity.
  - unfold valid, valid_binary, bounded, canonical_mantissa.
    rewrite Hd. apply andb_true_intro. split.
    + apply Z.eqb_eq. unfold fexp, emin, prec, emax. lia.
    + apply Z.leb_le. unfold prec, emax. lia.
Qed.

Lemma probability_nonneg (v : Z) :
  0 <= v < 2 ^ 24 -> leb zero (probability_of v) = true.
Proof.
  intros Hv. now destruct (probability_of_shape v Hv).
Qed.

Lemma probability_lt_one (v : Z) :
  0 <= v < 2 ^ 24 -> ltb (probability_of v) one = true.
Proof.
  intros Hv. destruct (probability_of_shape v Hv) as [->|M k Hk Hd Heq].
  - reflexivity.
  - change one with (S754_finite false 8388608 (-23)).
    unfold ltb, SFltb, SFcompare.
    replace (Zneg k ?= -23) with Lt; [reflexivity|].
    symmetry. apply Z.compare_lt_iff. lia.
Qed.

End ProbabilityFacts.

(** ** Comparison of canonical values *)

Module CompareFacts.
Import Float32Facts.

Lemma mul_compare_r (n m p : Z) :
  0 < p -> (n * p ?= m * p) = (n ?= m).
Proof. intros Hp. symmetry. apply Zmult_compare_compat_r. lia. Qed.

Lemma valid_finite_inv (s : bool) (m : positive) (e : Z) :
  valid (S754_finite s m e) ->
  -149 <= e <= 104
  /\ Zpos (digits2_pos m) <= 24
  /\ (-149 < e -> Zpos (digits2_pos m) = 24).
Proof.
  unfold valid, valid_binary, bounded, canonical_mantissa.
  intros H. apply andb_prop in H as [Hc Hb].
  apply Z.eqb_eq in Hc. apply Z.leb_le in Hb.
  unfold fexp, emin, prec, emax in *. lia.
Qed.

Lemma to_Q_scaled (x : float32) :
  valid x ->
  (to_Q x == scaled x # (2 ^ 149))%Q.
Proof.
  destruct x as [s|s| |s m e]; try reflexivity.
  intros Hv. destruct (valid_finite_inv _ _ _ Hv) as (He & _ & _).
  unfold to_Q, scaled, Qeq.
  set (n := if s then Zneg m else Zpos m).
  destruct e as [|k|k]; cbn [Qnum Qden inject_Z].
  - lia.
  - rewrite Z.pow_add_r by lia. rewrite Pos2Z.inj_pow. lia.
  - rewrite !Pos2Z.inj_pow.
    replace 149 with ((Zneg k + 149) + Zpos k) at 1 by lia.
    rewrite Z.pow_add_r by lia. lia.
Qed.

Lemma normal_dominates (a b X Y : Z) :
  a < 16777216 -> 8388608 <= b -> 0 < X -> 2 <= Y ->
  a * X < b * (X * Y).
Proof.
  intros Ha Hb HX HY.
  assert (a * X < 16777216 * X) by (apply Z.mul_lt_mono_pos_r; lia).
  assert (8388608 * 2 <= b * Y) by (apply Z.mul_le_mono_nonneg; lia).
  assert (8388608 * 2 * X <= b * Y * X)
    by (apply Z.mul_le_mono_nonneg_r; lia).
  lia.
Qed.

Lemma compare_canonical (m1 m2 : positive) (e1 e2 : Z) :
  valid (S754_finite false m1 e1) ->
  valid (S754_finite false m2 e2) ->
  match e1 ?= e2 with
  | Lt => Lt
  | Gt => Gt
  | Eq => Pos.compare_cont Eq m1 m2
  end = (Zpos m1 * 2 ^ (e1 + 149) ?= Zpos m2 * 2 ^ (e2 + 149)).
Proof.
  intros H1 H2.
  destruct (valid_finite_inv _ _ _ H1) as (He1 & Hd1 & Hn1).
  destruct (valid_finite_inv _ _ _ H2) as (He2 & Hd2 & Hn2).
  pose proof (digits2_pos_bounds m1) as B1.
  pose proof (digits2_pos_bounds m2) as B2.
  assert (U1 : Zpos m1 < 2 ^ 24).
  { apply Z.lt_le_trans with (2 ^ Zpos (digits2_pos m1)); [lia|].
    apply Z.pow_le_mono_r; lia. }
  assert (U2 : Zpos m2 < 2 ^ 24).
  { apply Z.lt_le_trans with (2 ^ Zpos (digits2_pos m2)); [lia|].
    apply Z.pow_le_mono_r; lia. }
  destruct (Z.compare_spec e1 e2) as [->|Hlt|Hgt].
  - rewrite mul_compare_r by (apply Z.pow_pos_nonneg; lia).
    reflexivity.
  - symmetry. apply Z.compare_lt_iff.
    rewrite Hn2 in B2 by lia.
    replace (e2 + 149) with ((e1 + 149) + (e2 - e1)) by lia.
    rewrite (Z.pow_add_r 2 (e1 + 149) (e2 - e1)) by lia.
    assert (0 < 2 ^ (e1 + 149)) by (apply Z.pow_pos_nonneg; lia).
    assert (2 ^ 1 <= 2 ^ (e2 - e1)) by (apply Z.pow_le_mono_r; lia).
    change (2 ^ (24 - 1)) with 8388608 in B2.
    change (2 ^ 24) with 16777216 in *. change (2 ^ 1) with 2 in *.
    apply normal_dominates; lia.
  - symmetry. apply Z.compare_gt_iff.
    rewrite Hn1 in B1 by lia.
    replace (e1 + 149) with ((e2 + 149) + (e1 - e2)) by lia.
    rewrite (Z.pow_add_r 2 (e2 + 149) (e1 - e2)) by lia.
    assert (0 < 2 ^ (e2 + 149)) by (apply Z.pow_pos_nonneg; lia).
    assert (2 ^ 1 <= 2 ^ (e1 - e2)) by (apply Z.pow_le_mono_r; lia).
    change (2 ^ (24 - 1)) with 8388608 in B1.
    change (2 ^ 24) with 16777216 in *. change (2 ^ 1) with 2 in *.
    apply normal_dominates; lia.
Qed.

Lemma valid_sign (s s' : bool) (m : positive) (e : Z) :
  valid (S754_finite s m e) -> valid (S754_finite s' m e).
Proof. exact (fun H => H). Qed.

(** On finite canonical values the IEEE comparison is the comparison of
    the denoted numbers. *)
Lemma SFcompare_scaled (x y : float32) :
  valid x -> valid y -> is_finite x = true -> is_finite y = true ->
  SFcompare x y = Some (scaled x ?= scaled y).
Proof.
  intros Vx Vy Fx Fy.
  destruct x as [sx|sx| |sx mx ex]; try discriminate Fx;
    destruct y as [sy|sy| |sy my ey]; try discriminate Fy.
  - reflexivity.
  - pose proof (valid_finite_inv _ _ _ Vy) as (He & _).
    assert (0 < 2 ^ (ey + 149)) by (apply Z.pow_pos_nonneg; lia).
    unfold SFcompare, scaled. f_equal. symmetry.
    destruct sy; [apply Z.compare_gt_iff|apply Z.compare_lt_iff]; nia.
  - pose proof (valid_finite_inv _ _ _ Vx) as (He & _).
    assert (0 < 2 ^ (ex + 149)) by (apply Z.pow_pos_nonneg; lia).
    unfold SFcompare, scaled. f_equal. symmetry.
    destruct sx; [apply Z.compare_lt_iff|apply Z.compare_gt_iff]; nia.
  - pose proof (valid_finite_inv _ _ _ Vx) as (Hex & _).
    pose proof (valid_finite_inv _ _ _ Vy) as (Hey & _).
    assert (0 < 2 ^ (ex + 149)) by (apply Z.pow_pos_nonneg; lia).
    assert (0 < 2 ^ (ey + 149)) by (apply Z.pow_pos_nonneg; lia).
    pose proof (compare_canonical mx my ex ey
                  (valid_sign _ false _ _ Vx) (valid_sign _ false _ _ Vy))
      as Hc.
    unfold SFcompare, scaled. f_equal.
    destruct sx, sy.
    + replace (Zneg mx) with (- Zpos mx) by reflexivity.
      replace (Zneg my) with (- Zpos my) by reflexivity.
      rewrite !Z.mul_opp_l, Z.compare_opp.
      rewrite (Z.compare_antisym (Zpos mx * 2 ^ (ex + 149))), <- Hc.
      now destruct (ex ?= ey).
    + symmetry. apply Z.compare_lt_iff. nia.
    + symmetry. apply Z.compare_gt_iff. nia.
    + exact Hc.
Qed.

Lemma Qcompare_scaled (x y : float32) :
  valid x -> valid y ->
  (to_Q x ?= to_Q y)%Q = (scaled x ?= scaled y).
Proof.
  intros Vx Vy.
  rewrite (to_Q_scaled x Vx), (to_Q_scaled y Vy).
  unfold Qcompare. cbn [Qnum Qden].
  apply mul_compare_r. reflexivity.
Qed.

Theorem SFcompare_to_Q (x y : float32) :
  valid x -> valid y -> is_finite x = true -> is_finite y = true ->
  SFcompare x y = Some (to_Q x ?= to_Q y)%Q.
Proof.
  intros. rewrite Qcompare_scaled by assumption.
  now apply SFcompare_scaled.
Qed.

End CompareFacts.

(** ** Valid configurations *)

Module ConfigFacts.
Import CompareFacts.

Lemma ltb_to_Q (x y : float32) :
  valid x -> valid y -> is_finite x = true -> is_finite y = true ->
  ltb x y = true <-> (to_Q x < to_Q y)%Q.
Proof.
  intros Vx Vy Fx Fy. unfold ltb, SFltb.
  rewrite (SFcompare_to_Q x y Vx Vy Fx Fy), Qlt_alt.
  destruct (to_Q x ?= to_Q y)%Q; split; congruence.
Qed.

Lemma leb_to_Q (x y : float32) :
  valid x -> valid y -> is_finite x = true -> is_finite y = true ->
  leb x y = true <-> (to_Q x <= to_Q y)%Q.
Proof.
  intros Vx Vy Fx Fy. unfold leb, SFleb.
  rewrite (SFcompare_to_Q x y Vx Vy Fx Fy), Qle_alt.
  destruct (to_Q x ?= to_Q y)%Q; split; congruence.
Qed.

Lemma eqb_to_Q (x y : float32) :
  valid x -> valid y -> is_finite x = true -> is_finite y = true ->
  eqb x y = true <-> (to_Q x == to_Q y)%Q.
Proof.
  intros Vx Vy Fx Fy. unfold eqb, SFeqb.
  rewrite (SFcompare_to_Q x y Vx Vy Fx Fy), Qeq_alt.
  destruct (to_Q x ?= to_Q y)%Q; split; congruence.
Qed.

(** What a configuration that passes [checkConfig] satisfies. *)
Lemma checkConfig_None_inv (c : Config) :
  checkConfig c = None ->
  leb (ModifyResponseProbability c) zero = false
  /\ gtb (ModifyResponseProbability c) one = false
  /\ 0 < MaxIncreaseDelta c.
Proof.
  unfold checkConfig. intros H.
  destruct (leb (ModifyResponseProbability c) zero); [discriminate|].
  destruct (gtb (ModifyResponseProbability c) one); [discriminate|].
  destruct (Z.leb_spec (MaxIncreaseDelta c) 0); [discriminate|].
  repeat split. assumption.
Qed.

(** The two range tests reject the infinities; a NaN passes both. *)
Lemma range_tests_finite (x : float32) :
  leb x zero = false -> gtb x one = false ->
  is_nan x = true \/ is_finite x = true.
Proof.
  intros Hle Hgt.
  destruct x as [s|[|]| |s m e];
    try (right; reflexivity); try (left; reflexivity).
  - vm_compute in Hle. discriminate Hle.
  - vm_compute in Hgt. discriminate Hgt.
Qed.

Lemma SFcompare_total (x y : float32) :
  is_nan x = false -> is_nan y = false ->
  exists c, SFcompare x y = Some c.
Proof.
  destruct x, y; simpl; intros; try discriminate; eauto.
Qed.

Lemma SFcompare_antisym (x y : float32) :
  SFcompare y x = option_map CompOpp (SFcompare x y).
Proof.
  destruct x as [s1|s1| |s1 m1 e1], y as [s2|s2| |s2 m2 e2];
    try reflexivity;
    try (destruct s1; reflexivity);
    try (destruct s2; reflexivity);
    try (destruct s1, s2; reflexivity).
  unfold SFcompare, option_map. f_equal.
  rewrite (Z.compare_antisym e1 e2).
  pose proof (Pos.compare_cont_antisym m1 m2 Eq) as Hm. cbn [CompOpp] in Hm.
  destruct s1, s2, (e1 ?= e2); cbn [CompOpp]; try reflexivity;
    rewrite <- Hm; reflexivity.
Qed.

(** Away from NaN, failing [x <= y] means [y < x], and failing [y < x]
    means [x <= y]. *)
Lemma not_leb_ltb (x y : float32) :
  is_nan x = false -> is_nan y = false ->
  leb x y = false -> ltb y x = true.
Proof.
  intros Hx Hy. unfold leb, ltb, SFleb, SFltb.
  rewrite (SFcompare_antisym x y).
  destruct (SFcompare_total x y Hx Hy) as [c ->].
  destruct c; cbn; congruence.
Qed.

Lemma not_ltb_leb (x y : float32) :
  is_nan x = false -> is_nan y = false ->
  ltb y x = false -> leb x y = true.
Proof.
  intros Hx Hy. unfold leb, ltb, SFleb, SFltb.
  rewrite (SFcompare_antisym x y).
  destruct (SFcompare_total x y Hx Hy) as [c ->].
  destruct c; cbn; congruence.
Qed.

(** [y < x] and [x <= y] exclude each other, NaN or not. *)
Lemma ltb_not_leb (x y : float32) : ltb y x = true -> leb x y = false.
Proof.
  unfold leb, ltb, SFleb, SFltb.
  rewrite (SFcompare_antisym x y).
  destruct (SFcompare x y) as [[| |]|]; cbn; congruence.
Qed.

Lemma leb_not_ltb (x y : float32) : leb x y = true -> ltb y x = false.
Proof.
  unfold leb, ltb, SFleb, SFltb.
  rewrite (SFcompare_antisym x y).
  destruct (SFcompare x y) as [[| |]|]; cbn; congruence.
Qed.

End ConfigFacts.

(** ** Configuration check and constructor *)

(** C4 (as amended): for every configuration whose
    [ModifyResponseProbability] is not a NaN, [checkConfig] returns
    [ErrInvalidModifyResponseProbability] exactly when the probability is
    [<= 0] or [> 1], returns [ErrInvalidMaxIncreaseDelta] when the
    probability is in (0, 1] and [MaxIncreaseDelta <= 0], and succeeds in
    every other case. *)
Theorem checkConfig_outcomes (c : Config) :
  is_nan (ModifyResponseProbability c) = false ->
  let prob := ModifyResponseProbability c in
  let N := MaxIncreaseDelta c in
  (checkConfig c = Some ErrInvalidModifyResponseProbability
   <-> leb prob zero = true \/ gtb prob one = true)
  /\ (ltb zero prob = true /\ leb prob one = true -> N <= 0 ->
      checkConfig c = Some ErrInvalidMaxIncreaseDelta)
  /\ (~ (leb prob zero = true \/ gtb prob one = true) ->
      ~ ((ltb zero prob = true /\ leb prob one = true) /\ N <= 0) ->
      checkConfig c = None)
  /\ (valid prob -> is_finite prob = true ->
      (checkConfig c = Some ErrInvalidModifyResponseProbability
       <-> (to_Q prob <= 0 \/ 1 < to_Q prob)%Q)).
Proof.
  intros Hnan prob N.
  assert (Hiff : checkConfig c = Some ErrInvalidModifyResponseProbability
                 <-> leb prob zero = true \/ gtb prob one = true).
  { unfold checkConfig. fold prob. fold N.
    rewrite <- orb_true_iff.
    destruct (leb prob zero || gtb prob one).
    - split; reflexivity.
    - destruct (N <=? 0); split; discriminate. }
  split; [exact Hiff|]. split; [|split].
  - intros [H0 H1] HN. unfold checkConfig. fold prob. fold N.
    rewrite (ConfigFacts.ltb_not_leb prob zero H0).
    change (gtb prob one) with (ltb one prob).
    rewrite (ConfigFacts.leb_not_ltb prob one H1). cbn [orb].
    destruct (Z.leb_spec N 0); [reflexivity|lia].
  - intros Hout Hin. unfold checkConfig. fold prob. fold N.
    destruct (leb prob zero) eqn:Hle; [elim Hout; now left|].
    destruct (gtb prob one) eqn:Hgt; [elim Hout; now right|]. cbn [orb].
    destruct (Z.leb_spec N 0) as [HN|HN]; [|reflexivity].
    elim Hin. split; [split|exact HN].
    + now apply ConfigFacts.not_leb_ltb.
    + now apply ConfigFacts.not_ltb_leb.
  - intros Vprob Hfin. rewrite Hiff.
    change (gtb prob one) with (ltb one prob).
    rewrite (ConfigFacts.leb_to_Q prob zero Vprob eq_refl Hfin eq_refl).
    rewrite (ConfigFacts.ltb_to_Q one prob eq_refl Vprob eq_refl Hfin).
    assert (H1 : (to_Q one == 1)%Q) by reflexivity.
    rewrite H1. reflexivity.
Qed.

(** C6: [New] returns the error of [checkConfig], and no hook, when the
    check fails; when it succeeds [New] returns a hook holding exactly the
    given configuration and no error.  A hook returned by [New] therefore
    always holds a configuration that passes the check. *)
Theorem New_propagates_validation (c : Config) :
  (forall err, checkConfig c = Some err -> New c = (None, Some err))
  /\ (checkConfig c = None -> New c = (Some {| cfg := c |}, None))
  /\ (forall h, fst (New c) = Some h ->
      cfg h = c /\ checkConfig (cfg h) = None /\ snd (New c) = None)
  /\ (fst (New c) = None
      <-> snd (New c) = checkConfig c /\ checkConfig c <> None).
Proof.
  unfold New. destruct (checkConfig c) as [e|] eqn:Hc; cbn [fst snd].
  - split; [intros err [= ->]; reflexivity|].
    split; [discriminate|]. split; [discriminate|].
    split; [intros _; split; [reflexivity|discriminate]|reflexivity].
  - split; [discriminate|]. split; [reflexivity|]. split.
    + intros h [= <-]. repeat split. exact Hc.
    + split; [discriminate|]. intros [_ H]. now elim H.
Qed.

(** C10: the probability is checked before the maximal delta: when both
    fields are invalid, [checkConfig], and with it [New], report
    [ErrInvalidModifyResponseProbability]. *)
Theorem probability_checked_before_max_delta (c : Config) :
  leb (ModifyResponseProbability c) zero = true
  \/ gtb (ModifyResponseProbability c) one = true ->
  MaxIncreaseDelta c <= 0 ->
  checkConfig c = Some ErrInvalidModifyResponseProbability
  /\ checkConfig c <> Some ErrInvalidMaxIncreaseDelta
  /\ New c = (None, Some ErrInvalidModifyResponseProbability).
Proof.
  intros Hp _.
  assert (Hc : checkConfig c = Some ErrInvalidModifyResponseProbability).
  { unfold checkConfig. apply orb_true_iff in Hp. now rewrite Hp. }
  unfold New. rewrite Hc. repeat split. discriminate.
Qed.

(** ** The hook *)

Section Properties.

Variable context : Type.
Variable AnnounceRequest : Type.
Variable Rest : Type.
Variables ScrapeRequest ScrapeResponse ApiRequest ApiResponse : Type.
Variable DeriveEntropyFromRequest : AnnounceRequest -> Z * Z.
Variable Intn : Z -> Z -> Z -> Z * Z * Z.

Hypothesis Intn_range : Intn_contract Intn.

Local Abbreviation announce :=
  (HandleAnnounce context AnnounceRequest Rest DeriveEntropyFromRequest Intn).
Local Abbreviation draw1 :=
  (first_draw AnnounceRequest DeriveEntropyFromRequest Intn).
Local Abbreviation draw2 :=
  (second_draw AnnounceRequest DeriveEntropyFromRequest Intn).
Local Abbreviation decides :=
  (decides_to_modify AnnounceRequest DeriveEntropyFromRequest Intn).
Local Abbreviation delta :=
  (delta_of AnnounceRequest DeriveEntropyFromRequest Intn).

(** [HandleAnnounce] as one conditional on the response. *)
Lemma HandleAnnounce_unfold (h : hook) (ctx : context)
    (req : AnnounceRequest) (resp : AnnounceResponse Rest) :
  announce h ctx req resp
  = ((ctx, None),
     if decides h req
     then apply_delta (ModifyMinInterval (cfg h)) (delta h req) resp
     else resp).
Proof.
  unfold HandleAnnounce, decides_to_modify, delta_of, second_draw,
    first_draw, modify_condition, probability_of, apply_delta,
    addSeconds_of.
  destruct (DeriveEntropyFromRequest req) as [s0 s1].
  destruct (Intn s0 s1 (Z.shiftl 1 24)) as [[v s0'] s1']. cbn [fst snd].
  destruct (Intn s0' s1' (MaxIncreaseDelta (cfg h))) as [[v2 s0''] s1''].
  cbn [fst snd].
  destruct (eqb (ModifyResponseProbability (cfg h)) one
            || ltb (div (of_int v) two24) (ModifyResponseProbability (cfg h)));
    reflexivity.
Qed.

Lemma first_draw_range (req : AnnounceRequest) :
  0 <= fst (fst (draw1 req)) < 2 ^ 24.
Proof.
  unfold first_draw. destruct (DeriveEntropyFromRequest req) as [s0 s1].
  apply (Intn_range s0 s1 (Z.shiftl 1 24)). reflexivity.
Qed.

Lemma second_draw_range (n : Z) (req : AnnounceRequest) :
  0 < n -> 0 <= fst (fst (draw2 n req)) < n.
Proof.
  intros Hn. unfold second_draw.
  destruct (draw1 req) as [[v s0] s1]. now apply Intn_range.
Qed.

(** Below the overflow threshold the added duration is the drawn number
    of seconds plus one, without wrap-around. *)
Lemma addSeconds_exact (n v : Z) :
  n <= Duration.max_seconds -> 0 <= v < n ->
  addSeconds_of v = (v + 1) * Duration.Second.
Proof.
  intros Hn Hv. unfold addSeconds_of, Int64.mul, Int64.add.
  rewrite (Int64Facts.wrap_small (v + 1)) by int64_bounds.
  apply Int64Facts.wrap_small. int64_bounds.
Qed.

Lemma delta_exact (h : hook) (req : AnnounceRequest) :
  0 < MaxIncreaseDelta (cfg h) <= Duration.max_seconds ->
  delta h req
  = (fst (fst (draw2 (MaxIncreaseDelta (cfg h)) req)) + 1) * Duration.Second.
Proof.
  intros [Hpos Hmax]. unfold delta_of.
  apply addSeconds_exact with (n := MaxIncreaseDelta (cfg h)); [assumption|].
  now apply second_draw_range.
Qed.

(** Fewer than [2^55] seconds never wrap around to a duration of zero:
    [2^55] is the least positive number of seconds whose count of
    nanoseconds is a multiple of [2^64]. *)
Lemma addSeconds_nonzero (n v : Z) :
  n < 2 ^ 55 -> 0 <= v < n -> addSeconds_of v <> 0.
Proof.
  intros Hn Hv. unfold addSeconds_of, Int64.mul, Int64.add.
  rewrite (Int64Facts.wrap_small (v + 1)) by int64_bounds.
  unfold Int64.wrap, Duration.Second. intros H0.
  pose proof (Z.div_mod ((v + 1) * 1000000000 + 2 ^ 63) (2 ^ 64)) as Hq.
  assert (Hdvd : (2 ^ 55 | 1953125 * (v + 1))).
  { exists (((v + 1) * 1000000000 + 2 ^ 63) / 2 ^ 64). lia. }
  apply Z.gauss in Hdvd; [|reflexivity].
  apply Z.divide_pos_le in Hdvd; lia.
Qed.

Lemma delta_changes_the_interval (h : hook) (req : AnnounceRequest) (i : Z) :
  0 < MaxIncreaseDelta (cfg h) < 2 ^ 55 ->
  Int64.add i (delta h req) <> i.
Proof.
  intros [HN Hmax].
  pose proof (second_draw_range (MaxIncreaseDelta (cfg h)) req HN) as Hv2.
  apply Int64Facts.add_changes.
  - unfold delta_of, addSeconds_of, Int64.mul. apply Int64Facts.wrap_in_range.
  - unfold delta_of. now apply addSeconds_nonzero with (MaxIncreaseDelta (cfg h)).
Qed.

(** C1 (as amended): under a valid configuration whose [MaxIncreaseDelta] is
    below [2^55], so that the added duration cannot wrap around to zero,
    [HandleAnnounce] modifies the response exactly when
    [ModifyResponseProbability == 1] or [p < ModifyResponseProbability],
    where [p] is the first draw [v], taken in [[0, 2^24)], divided by
    [2^24]: [p] is exactly [v / 2^24], lies in [[0, 1)], and the comparison
    is strict.  When the condition fails the call returns the response as it
    received it; when the probability is one, every call modifies. *)
Theorem announce_modifies_iff_draw_below_probability
    (h : hook) (ctx : context) (req : AnnounceRequest)
    (resp : AnnounceResponse Rest) :
  checkConfig (cfg h) = None ->
  MaxIncreaseDelta (cfg h) < 2 ^ 55 ->
  let prob := ModifyResponseProbability (cfg h) in
  let v := fst (fst (draw1 req)) in
  let p := probability_of v in
  let modify := eqb prob one || ltb p prob in
  let out := announce h ctx req resp in
  0 <= v < 2 ^ 24
  /\ (to_Q p == v # 16777216)%Q
  /\ (0 <= to_Q p < 1)%Q
  /\ (leb zero p = true /\ ltb p one = true)
  /\ (snd out <> resp <-> modify = true)
  /\ (Interval (snd out) <> Interval resp <-> modify = true)
  /\ (eqb prob one = true ->
      snd out <> resp /\ Interval (snd out) <> Interval resp)
  /\ (modify = true ->
      out = ((ctx, None),
             apply_delta (ModifyMinInterval (cfg h)) (delta h req) resp))
  /\ (modify = false -> out = ((ctx, None), resp))
  /\ (eqb prob one = true ->
      out = ((ctx, None),
             apply_delta (ModifyMinInterval (cfg h)) (delta h req) resp))
  /\ (valid prob -> is_nan prob = false ->
      (modify = true <-> (to_Q prob == 1 \/ v # 16777216 < to_Q prob)%Q))
  /\ (is_nan prob = true -> modify = false).
Proof.
  intros Hcfg Hmax prob v p modify out.
  destruct (ConfigFacts.checkConfig_None_inv _ Hcfg) as (Hle & Hgt & HN).
  pose proof (first_draw_range req) as Hv. fold v in Hv.
  pose proof (ProbabilityFacts.probability_value v Hv) as Hp. fold p in Hp.
  assert (Hout : out = ((ctx, None),
                        if modify
                        then apply_delta (ModifyMinInterval (cfg h))
                                         (delta h req) resp
                        else resp)).
  { unfold out. rewrite HandleAnnounce_unfold. reflexivity. }
  split; [exact Hv|]. split; [exact Hp|]. split.
  { rewrite Hp. unfold Qle, Qlt. cbn [Qnum Qden]. lia. }
  split.
  { split; [now apply ProbabilityFacts.probability_nonneg
           |now apply ProbabilityFacts.probability_lt_one]. }
  assert (Hi : Interval (snd out) <> Interval resp <-> modify = true).
  { rewrite Hout. cbn [snd]. destruct modify.
    - split; [reflexivity|]. intros _. unfold apply_delta.
      assert (Hd : Interval (add_Interval (delta h req) resp)
                   <> Interval resp).
      { cbn [Interval add_Interval].
        apply delta_changes_the_interval. lia. }
      now destruct (ModifyMinInterval (cfg h)).
    - split; [intros H; now elim H|discriminate]. }
  assert (Hr : snd out <> resp <-> modify = true).
  { split.
    - intros Hne. destruct modify; [reflexivity|].
      exfalso. apply Hne. now rewrite Hout.
    - intros Hm Heq. apply (proj2 Hi Hm). now rewrite Heq. }
  split; [exact Hr|]. split; [exact Hi|].
  split.
  { intros H1.
    assert (Hm : modify = true) by (unfold modify; now rewrite H1).
    split; [now apply Hr|now apply Hi]. }
  split; [intros Hm; now rewrite Hout, Hm|].
  split; [intros Hm; now rewrite Hout, Hm|].
  split.
  { intros H1. rewrite Hout. unfold modify. now rewrite H1. }
  split.
  - intros Vprob Hnan.
    destruct (ConfigFacts.range_tests_finite prob Hle Hgt) as [Hn|Hfin];
      [congruence|].
    pose proof (ProbabilityFacts.probability_valid v Hv) as Vp. fold p in Vp.
    assert (Fp : is_finite p = true).
    { unfold p.
      now destruct (ProbabilityFacts.probability_of_shape v Hv). }
    unfold modify. rewrite orb_true_iff.
    rewrite (ConfigFacts.eqb_to_Q prob one Vprob eq_refl Hfin eq_refl).
    rewrite (ConfigFacts.ltb_to_Q p prob Vp Vprob Fp Hfin).
    rewrite Hp.
    assert (H1 : (to_Q one == 1)%Q) by reflexivity.
    rewrite H1. reflexivity.
  - intros Hnan. unfold modify.
    destruct prob; try discriminate Hnan.
    unfold ltb, SFltb. now destruct p.
Qed.

(** C2 (as amended): under a valid configuration whose [MaxIncreaseDelta]
    is [N <= 9223372036], the largest number of whole seconds a
    [time.Duration] holds, a modifying call adds [v2 + 1] whole seconds to
    [Interval], where [v2] is the second draw, taken in [[0, N)]: the
    applied delta lies between one second and [N] seconds, and is exactly
    one second when [N = 1]. *)
Theorem applied_delta_between_one_and_max_seconds
    (h : hook) (ctx : context) (req : AnnounceRequest)
    (resp : AnnounceResponse Rest) :
  checkConfig (cfg h) = None ->
  MaxIncreaseDelta (cfg h) <= Duration.max_seconds ->
  decides h req = true ->
  let N := MaxIncreaseDelta (cfg h) in
  let v2 := fst (fst (draw2 N req)) in
  let out := announce h ctx req resp in
  let d := Int64.sub (Interval (snd out)) (Interval resp) in
  0 <= v2 < N
  /\ Interval (snd out)
     = Int64.add (Interval resp) ((v2 + 1) * Duration.Second)
  /\ d = (v2 + 1) * Duration.Second
  /\ 1 * Duration.Second <= d <= N * Duration.Second
  /\ (N = 1 -> d = Duration.Second).
Proof.
  intros Hcfg Hmax Hdec N v2 out d.
  destruct (ConfigFacts.checkConfig_None_inv _ Hcfg) as (_ & _ & HN).
  pose proof (second_draw_range N req HN) as Hv2. fold v2 in Hv2.
  assert (Hdelta : delta h req = (v2 + 1) * Duration.Second)
    by (apply delta_exact; fold N; lia).
  assert (Hint : Interval (snd out)
                 = Int64.add (Interval resp) ((v2 + 1) * Duration.Second)).
  { unfold out. rewrite HandleAnnounce_unfold, Hdec, Hdelta.
    unfold apply_delta. cbn [snd].
    now destruct (ModifyMinInterval (cfg h)). }
  assert (Hd : d = (v2 + 1) * Duration.Second).
  { unfold d. rewrite Hint. apply Int64Facts.sub_add_cancel.
    fold N in Hmax. int64_bounds. }
  split; [exact Hv2|]. split; [exact Hint|]. split; [exact Hd|].
  rewrite Hd. unfold Duration.Second. split; [lia|].
  intros H1. rewrite H1 in Hv2. replace v2 with 0 by lia. reflexivity.
Qed.

(** C3: the delta draw is made on the seed pair returned by the
    probability draw, which is performed whatever the probability is (also
    when it is one and the comparison is bypassed); hence two hooks with
    the same [MaxIncreaseDelta] that both modify apply the same delta to
    the same request. *)
Theorem delta_independent_of_probability
    (h1 h2 : hook) (ctx : context) (req : AnnounceRequest)
    (resp : AnnounceResponse Rest) :
  MaxIncreaseDelta (cfg h1) = MaxIncreaseDelta (cfg h2) ->
  decides h1 req = true ->
  decides h2 req = true ->
  let '(s0, s1) := DeriveEntropyFromRequest req in
  let '(_, s0', s1') := Intn s0 s1 (Z.shiftl 1 24) in
  let d :=
    addSeconds_of (fst (fst (Intn s0' s1' (MaxIncreaseDelta (cfg h1))))) in
  Interval (snd (announce h1 ctx req resp)) = Int64.add (Interval resp) d
  /\ Interval (snd (announce h2 ctx req resp)) = Int64.add (Interval resp) d
  /\ Int64.sub (Interval (snd (announce h1 ctx req resp))) (Interval resp)
     = Int64.sub (Interval (snd (announce h2 ctx req resp))) (Interval resp).
Proof.
  intros HN H1 H2.
  assert (Hd : delta h2 req = delta h1 req)
    by (unfold delta_of; now rewrite HN).
  rewrite !HandleAnnounce_unfold, H1, H2, Hd.
  unfold delta_of, second_draw, first_draw, apply_delta.
  destruct (DeriveEntropyFromRequest req) as [s0 s1].
  destruct (Intn s0 s1 (Z.shiftl 1 24)) as [[v s0'] s1'].
  cbn [snd].
  now destruct (ModifyMinInterval (cfg h1)), (ModifyMinInterval (cfg h2)).
Qed.

(** C5: none of the three entry points returns an error, whatever the
    configuration and the input. *)
Theorem entry_points_return_nil_error
    (h : hook) (ctx : context)
    (areq : AnnounceRequest) (aresp : AnnounceResponse Rest)
    (sreq : ScrapeRequest) (sresp : ScrapeResponse)
    (qreq : ApiRequest) (qresp : ApiResponse) :
  snd (fst (announce h ctx areq aresp)) = None
  /\ snd (fst (HandleScrape context ScrapeRequest ScrapeResponse
                            h ctx sreq sresp)) = None
  /\ snd (fst (HandleApi context ApiRequest ApiResponse
                         h ctx qreq qresp)) = None.
Proof.
  rewrite HandleAnnounce_unfold. repeat split.
Qed.

(** C7: in a modifying call with [ModifyMinInterval] set, [MinInterval]
    receives the very duration added to [Interval]; with
    [ModifyMinInterval] unset, [MinInterval] is left as it was, whether
    the call modifies or not. *)
Theorem min_interval_follows_interval
    (h : hook) (ctx : context) (req : AnnounceRequest)
    (resp : AnnounceResponse Rest) :
  let out := announce h ctx req resp in
  (ModifyMinInterval (cfg h) = true -> decides h req = true ->
     Interval (snd out) = Int64.add (Interval resp) (delta h req)
     /\ MinInterval (snd out) = Int64.add (MinInterval resp) (delta h req)
     /\ Int64.sub (MinInterval (snd out)) (MinInterval resp)
        = Int64.sub (Interval (snd out)) (Interval resp))
  /\ (ModifyMinInterval (cfg h) = false ->
      MinInterval (snd out) = MinInterval resp).
Proof.
  cbv zeta. rewrite HandleAnnounce_unfold. cbn [snd]. split.
  - intros Hmin Hdec. rewrite Hdec. unfold apply_delta. rewrite Hmin.
    cbn [Interval MinInterval add_Interval add_MinInterval].
    repeat split. now rewrite !Int64Facts.sub_add.
  - intros Hmin. unfold apply_delta. rewrite Hmin.
    now destruct (decides h req).
Qed.

(** C8: the decision and the delta are fixed by the hook and the request:
    two evaluations for the same request, with any contexts and any
    responses, take the same decision and, when modifying, add the same
    duration. *)
Theorem announce_deterministic (h : hook) (req : AnnounceRequest) :
  exists (modify : bool) (d : Z),
    forall (ctx1 ctx2 : context) (resp1 resp2 : AnnounceResponse Rest),
      announce h ctx1 req resp1
      = ((ctx1, None),
         if modify
         then apply_delta (ModifyMinInterval (cfg h)) d resp1
         else resp1)
      /\ announce h ctx2 req resp2
         = ((ctx2, None),
            if modify
            then apply_delta (ModifyMinInterval (cfg h)) d resp2
            else resp2).
Proof.
  exists (decides h req), (delta h req). intros.
  split; apply HandleAnnounce_unfold.
Qed.

(** C9: [HandleScrape] and [HandleApi] return the context they were
    given, no error, and leave the response as it was. *)
Theorem scrape_and_api_are_inert
    (h : hook) (ctx : context)
    (sreq : ScrapeRequest) (sresp : ScrapeResponse)
    (qreq : ApiRequest) (qresp : ApiResponse) :
  HandleScrape context ScrapeRequest ScrapeResponse h ctx sreq sresp
  = ((ctx, None), sresp)
  /\ HandleApi context ApiRequest ApiResponse h ctx qreq qresp
     = ((ctx, None), qresp).
Proof. split; reflexivity. Qed.

End Properties.

(** ** The statements at the model instance *)

Module ModelFacts.

Lemma Intn_range : Intn_contract Model.Intn.
Proof.
  intros s0 s1 n Hn. unfold Model.Intn. cbn [fst].
  apply Z.mod_pos_bound. exact Hn.
Qed.

End ModelFacts.

(** C1 at a hook with probability 0.5 and a request whose first draw is
    8388607, just below [0.5 * 2^24]: the response is modified. *)
Lemma announce_modifies_iff_draw_below_probability_witness :
  Intn_contract Model.Intn
  /\ checkConfig (cfg Model.hook_half) = None
  /\ MaxIncreaseDelta (cfg Model.hook_half) < 2 ^ 55
  /\ snd (Model.HandleAnnounce Model.hook_half tt Model.request_b
            (Model.response 1800000000000 900000000000))
     <> Model.response 1800000000000 900000000000
  /\ Model.HandleAnnounce Model.hook_half tt Model.request_b
       (Model.response 1800000000000 900000000000)
     = ((tt, None), Model.response 1803000000000 900000000000).
Proof.
  split; [exact ModelFacts.Intn_range|]. split; [reflexivity|].
  split; [reflexivity|].
  destruct (announce_modifies_iff_draw_below_probability
              unit Model.Request unit Model.DeriveEntropyFromRequest
              Model.Intn ModelFacts.Intn_range Model.hook_half tt
              Model.request_b (Model.response 1800000000000 900000000000)
              eq_refl eq_refl)
    as (_ & _ & _ & _ & Hr & _ & _ & Hmod & _).
  split.
  - apply Hr. vm_compute. reflexivity.
  - etransitivity; [apply Hmod; vm_compute; reflexivity|].
    vm_compute. reflexivity.
Defined.

(** C1 as stated fails where the added duration wraps around to zero: with
    probability one and [MaxIncreaseDelta = 2^63 - 1], a valid
    configuration, and a second draw of [2^55 - 1], the modifying branch
    adds [2^55] seconds, that is [1953125 * 2^64] nanoseconds, and the
    response comes back as it was. *)
Lemma probability_one_leaves_response_unchanged :
  Intn_contract Model.Intn
  /\ checkConfig (cfg Model.hook_huge) = None
  /\ eqb (ModifyResponseProbability (cfg Model.hook_huge)) one = true
  /\ decides_to_modify Model.Request Model.DeriveEntropyFromRequest
       Model.Intn Model.hook_huge Model.request_e = true
  /\ fst (fst (second_draw Model.Request Model.DeriveEntropyFromRequest
                 Model.Intn (MaxIncreaseDelta (cfg Model.hook_huge))
                 Model.request_e)) = 2 ^ 55 - 1
  /\ delta_of Model.Request Model.DeriveEntropyFromRequest Model.Intn
       Model.hook_huge Model.request_e = 0
  /\ Model.HandleAnnounce Model.hook_huge tt Model.request_e
       (Model.response 1800000000000 900000000000)
     = ((tt, None), Model.response 1800000000000 900000000000).
Proof.
  split; [exact ModelFacts.Intn_range|].
  repeat split; vm_compute; reflexivity.
Defined.

(** C2 at a hook with [MaxIncreaseDelta = 5]: three seconds are added. *)
Lemma applied_delta_between_one_and_max_seconds_witness :
  Intn_contract Model.Intn
  /\ checkConfig (cfg Model.hook_always) = None
  /\ MaxIncreaseDelta (cfg Model.hook_always) <= Duration.max_seconds
  /\ decides_to_modify Model.Request Model.DeriveEntropyFromRequest
       Model.Intn Model.hook_always Model.request_a = true
  /\ 1 * Duration.Second
     <= Int64.sub
          (Interval (snd (Model.HandleAnnounce Model.hook_always tt
                            Model.request_a
                            (Model.response 1800000000000 900000000000))))
          1800000000000
     <= 5 * Duration.Second.
Proof.
  split; [exact ModelFacts.Intn_range|]. split; [reflexivity|].
  split; [vm_compute; discriminate|]. split; [vm_compute; reflexivity|].
  apply (applied_delta_between_one_and_max_seconds
           unit Model.Request unit Model.DeriveEntropyFromRequest
           Model.Intn ModelFacts.Intn_range Model.hook_always tt
           Model.request_a (Model.response 1800000000000 900000000000)).
  - reflexivity.
  - vm_compute; discriminate.
  - vm_compute; reflexivity.
Defined.

(** C2 as stated fails where [time.Duration(v+1) * time.Second] wraps
    around: with [MaxIncreaseDelta = 2^63 - 1], a valid configuration, and
    a second draw of 9223372036, the duration added to an [Interval] of zero
    is negative. *)
Lemma applied_delta_wraps_for_huge_max_delta :
  Intn_contract Model.Intn
  /\ checkConfig (cfg Model.hook_huge) = None
  /\ decides_to_modify Model.Request Model.DeriveEntropyFromRequest
       Model.Intn Model.hook_huge Model.request_c = true
  /\ fst (fst (second_draw Model.Request Model.DeriveEntropyFromRequest
                 Model.Intn (MaxIncreaseDelta (cfg Model.hook_huge))
                 Model.request_c)) = 9223372036
  /\ Interval (snd (Model.HandleAnnounce Model.hook_huge tt Model.request_c
                      (Model.response 0 0)))
     = -9223372036709551616
  /\ ~ (1 * Duration.Second
        <= Int64.sub
             (Interval (snd (Model.HandleAnnounce Model.hook_huge tt
                               Model.request_c (Model.response 0 0))))
             (Interval (Model.response 0 0))
        <= MaxIncreaseDelta (cfg Model.hook_huge) * Duration.Second).
Proof.
  split; [exact ModelFacts.Intn_range|].
  split; [reflexivity|]. split; [vm_compute; reflexivity|].
  split; [vm_compute; reflexivity|]. split; [vm_compute; reflexivity|].
  intros [H _]. vm_compute in H. apply H. reflexivity.
Defined.

(** C3 at a hook with probability one and a hook with probability 0.5, both
    with [MaxIncreaseDelta = 5]: the same request receives the same delta. *)
Lemma delta_independent_of_probability_witness :
  MaxIncreaseDelta (cfg Model.hook_always)
  = MaxIncreaseDelta (cfg Model.hook_half)
  /\ decides_to_modify Model.Request Model.DeriveEntropyFromRequest
       Model.Intn Model.hook_always Model.request_b = true
  /\ decides_to_modify Model.Request Model.DeriveEntropyFromRequest
       Model.Intn Model.hook_half Model.request_b = true
  /\ Int64.sub
       (Interval (snd (Model.HandleAnnounce Model.hook_always tt
                         Model.request_b (Model.response 1800 900))))
       1800
     = Int64.sub
         (Interval (snd (Model.HandleAnnounce Model.hook_half tt
                           Model.request_b (Model.response 1800 900))))
         1800.
Proof.
  split; [reflexivity|]. split; [vm_compute; reflexivity|].
  split; [vm_compute; reflexivity|].
  pose proof (delta_independent_of_probability
                unit Model.Request unit Model.DeriveEntropyFromRequest
                Model.Intn Model.hook_always Model.hook_half tt
                Model.request_b (Model.response 1800 900)
                eq_refl eq_refl eq_refl) as H.
  cbn in H. exact (proj2 (proj2 H)).
Defined.

(** C4 at probability 0.5 and maximal delta 10: the check succeeds. *)
Lemma checkConfig_outcomes_witness :
  is_nan (ModifyResponseProbability (Model.config Model.half 10 false))
  = false
  /\ checkConfig (Model.config Model.half 10 false) = None.
Proof.
  split; [reflexivity|].
  destruct (checkConfig_outcomes (Model.config Model.half 10 false) eq_refl)
    as (_ & _ & Hok & _).
  apply Hok.
  - intros [H|H]; vm_compute in H; discriminate H.
  - intros [_ H]. vm_compute in H. apply H. reflexivity.
Defined.

(** C4 as stated fails at a NaN probability with a non-positive maximal
    delta: the probability is neither [<= 0] nor [> 1], nor is it in
    (0, 1], and yet the check does not succeed. *)
Lemma checkConfig_nan_probability :
  leb S754_nan zero = false
  /\ gtb S754_nan one = false
  /\ ~ (ltb zero S754_nan = true /\ leb S754_nan one = true)
  /\ checkConfig (Model.config S754_nan 0 false)
     = Some ErrInvalidMaxIncreaseDelta
  /\ checkConfig (Model.config S754_nan 0 false) <> None.
Proof.
  split; [reflexivity|]. split; [reflexivity|].
  split; [intros [H _]; discriminate H|].
  split; [reflexivity|discriminate].
Defined.

(** C10 at probability 0 and maximal delta 0. *)
Lemma probability_checked_before_max_delta_witness :
  (leb (ModifyResponseProbability (Model.config zero 0 false)) zero = true
   \/ gtb (ModifyResponseProbability (Model.config zero 0 false)) one = true)
  /\ MaxIncreaseDelta (Model.config zero 0 false) <= 0
  /\ checkConfig (Model.config zero 0 false)
     = Some ErrInvalidModifyResponseProbability
  /\ New (Model.config zero 0 false)
     = (None, Some ErrInvalidModifyResponseProbability).
Proof.
  assert (H1 : leb (ModifyResponseProbability (Model.config zero 0 false))
                 zero = true
               \/ gtb (ModifyResponseProbability (Model.config zero 0 false))
                    one = true) by (left; reflexivity).
  assert (H2 : MaxIncreaseDelta (Model.config zero 0 false) <= 0)
    by (vm_compute; discriminate).
  split; [exact H1|]. split; [exact H2|].
  destruct (probability_checked_before_max_delta
              (Model.config zero 0 false) H1 H2) as (Hc & _ & Hn).
  split; assumption.
Defined.

(** The comparison is strict: at probability 0.5 a first draw of exactly
    [2^23], that is [p = 0.5], leaves the response as it was, while the
    draw just below it modifies. *)
Example draw_at_probability_is_not_modified :
  fst (fst (first_draw Model.Request Model.DeriveEntropyFromRequest
              Model.Intn Model.request_d)) = 8388608
  /\ Model.HandleAnnounce Model.hook_half tt Model.request_d
       (Model.response 1800000000000 900000000000)
     = ((tt, None), Model.response 1800000000000 900000000000)
  /\ fst (fst (first_draw Model.Request Model.DeriveEntropyFromRequest
                 Model.Intn Model.request_b)) = 8388607
  /\ Model.HandleAnnounce Model.hook_half tt Model.request_b
       (Model.response 1800000000000 900000000000)
     = ((tt, None), Model.response 1803000000000 900000000000).
Proof. repeat split; vm_compute; reflexivity. Qed.

(** The scenario of probability one, maximal delta 5 and
    [ModifyMinInterval] set: an interval of 1800 s and a minimal interval of
    900 s both grow by the same three seconds. *)
Example both_intervals_grow_together :
  Model.HandleAnnounce Model.hook_always tt Model.request_a
    (Model.response (1800 * Duration.Second) (900 * Duration.Second))
  = ((tt, None),
     Model.response (1803 * Duration.Second) (903 * Duration.Second)).
Proof. vm_compute. reflexivity. Qed.

(** * Further properties *)

(** ** The decision as a threshold on the draw *)

Module DecisionFacts.

(** Only the value one itself compares equal to one. *)
Lemma eqb_one_inv (x : float32) : eqb x one = true -> x = one.
Proof.
  change one with (S754_finite false 8388608 (-23)).
  unfold eqb, SFeqb, SFcompare.
  destruct x as [s|s| |s m e]; try discriminate.
  - destruct s; discriminate.
  - destruct s; [discriminate|].
    destruct (Z.compare_spec e (-23)) as [He|He|He]; try discriminate.
    destruct (Pos.compare_cont Eq m 8388608) eqn:Hm; try discriminate.
    intros _. apply (Pos.compare_eq m 8388608) in Hm. now subst.
Qed.

(** The test [prob == 1] never decides: a draw below [2^24] gives [p < 1],
    so [p < prob] already holds when [prob] is one. *)
Lemma modify_condition_ltb (prob : float32) (v : Z) :
  0 <= v < 2 ^ 24 ->
  modify_condition prob v = ltb (probability_of v) prob.
Proof.
  intros Hv. unfold modify_condition.
  destruct (eqb prob one) eqn:E; [|reflexivity].
  apply eqb_one_inv in E. subst prob.
  now rewrite (ProbabilityFacts.probability_lt_one v Hv).
Qed.

Lemma probability_finite (v : Z) :
  0 <= v < 2 ^ 24 -> is_finite (probability_of v) = true.
Proof.
  intros Hv. now destruct (ProbabilityFacts.probability_of_shape v Hv).
Qed.

(** On a finite probability the decision is [v / 2^24 < prob]. *)
Lemma modify_condition_Q (prob : float32) (v : Z) :
  valid prob -> is_finite prob = true -> 0 <= v < 2 ^ 24 ->
  modify_condition prob v = true <-> (v # 16777216 < to_Q prob)%Q.
Proof.
  intros Vp Fp Hv. rewrite (modify_condition_ltb prob v Hv).
  rewrite (ConfigFacts.ltb_to_Q _ prob
             (ProbabilityFacts.probability_valid v Hv) Vp
             (probability_finite v Hv) Fp).
  now rewrite (ProbabilityFacts.probability_value v Hv).
Qed.

Lemma to_Q_one : (to_Q one == 1)%Q.
Proof. reflexivity. Qed.

(** A NaN is below, above and equal to nothing. *)
Lemma modify_condition_nan (v : Z) : modify_condition S754_nan v = false.
Proof.
  unfold modify_condition, ltb, SFltb.
  now destruct (probability_of v).
Qed.

(** No binary32 value lies strictly between [1 - 2^-24] and [1]. *)
Lemma no_value_just_below_one (x : float32) :
  valid x -> is_finite x = true ->
  (16777215 # 16777216 < to_Q x)%Q -> (to_Q x <= 1)%Q -> (to_Q x == 1)%Q.
Proof.
  intros Vx Fx Hlo Hhi.
  rewrite (CompareFacts.to_Q_scaled x Vx) in *.
  unfold Qlt, Qle, Qeq in *. cbn [Qnum Qden] in *.
  destruct x as [s|s| |s m e]; try discriminate Fx.
  - cbn [scaled] in Hlo. lia.
  - destruct (CompareFacts.valid_finite_inv _ _ _ Vx) as (He & Hd & Hn).
    pose proof (Float32Facts.digits2_pos_bounds m) as Hb.
    unfold scaled in *.
    destruct s.
    { assert (0 < 2 ^ (e + 149)) by (apply Z.pow_pos_nonneg; lia).
      rewrite Pos2Z.inj_pow in Hlo. nia. }
    rewrite !Pos2Z.inj_pow in *.
    assert (Hm : Zpos m < 2 ^ 24).
    { apply Z.lt_le_trans with (2 ^ Zpos (digits2_pos m)); [lia|].
      apply Z.pow_le_mono_r; lia. }
    destruct (Z_le_gt_dec (e + 149) 125) as [Hsmall|Hbig].
    + exfalso.
      assert (0 < 2 ^ (e + 149)) by (apply Z.pow_pos_nonneg; lia).
      assert (2 ^ (e + 149) <= 2 ^ 125) by (apply Z.pow_le_mono_r; lia).
      change (2 ^ Zpos 149) with (2 ^ 125 * 2 ^ 24) in Hlo.
      assert (Zpos m * 2 ^ (e + 149) <= 16777215 * 2 ^ 125).
      { apply Z.mul_le_mono_nonneg; lia. }
      change (2 ^ 24) with 16777216 in *. lia.
    + rewrite Hn in Hb by lia.
      assert (2 ^ 126 <= 2 ^ (e + 149)) by (apply Z.pow_le_mono_r; lia).
      assert (2 ^ (24 - 1) * 2 ^ 126 <= Zpos m * 2 ^ (e + 149)).
      { apply Z.mul_le_mono_nonneg; lia. }
      change (2 ^ (24 - 1) * 2 ^ 126) with (2 ^ 149) in *.
      change (2 ^ Zpos 149) with (2 ^ 149) in *. lia.
Qed.

(** A smaller draw is below whatever a larger draw is below. *)
Lemma ltb_probability_mono (prob : float32) (v1 v2 : Z) :
  valid prob -> 0 <= v1 <= v2 -> v2 < 2 ^ 24 ->
  ltb (probability_of v2) prob = true ->
  ltb (probability_of v1) prob = true.
Proof.
  intros Vp H12 H2 Hlt.
  assert (R1 : 0 <= v1 < 2 ^ 24) by lia.
  assert (R2 : 0 <= v2 < 2 ^ 24) by lia.
  destruct (is_finite prob) eqn:Fp.
  - rewrite (ConfigFacts.ltb_to_Q _ prob
               (ProbabilityFacts.probability_valid v2 R2) Vp
               (probability_finite v2 R2) Fp) in Hlt.
    rewrite (ConfigFacts.ltb_to_Q _ prob
               (ProbabilityFacts.probability_valid v1 R1) Vp
               (probability_finite v1 R1) Fp).
    rewrite (ProbabilityFacts.probability_value v2 R2) in Hlt.
    rewrite (ProbabilityFacts.probability_value v1 R1).
    apply Qle_lt_trans with (v2 # 16777216)%Q; [|exact Hlt].
    unfold Qle. cbn [Qnum Qden]. lia.
  - destruct (ProbabilityFacts.probability_of_shape v2 R2);
      destruct (ProbabilityFacts.probability_of_shape v1 R1);
      destruct prob as [s|[|]| |s m e];
      try discriminate Fp; try discriminate Hlt; reflexivity.
Qed.

(** [x <= y] holds of no NaN. *)
Lemma leb_true_not_nan (x y : float32) :
  leb x y = true -> is_nan x = false /\ is_nan y = false.
Proof.
  intros H.
  destruct x as [s|s| |s m e]; try discriminate H;
    destruct y as [s'|s'| |s' m' e']; try discriminate H;
    split; reflexivity.
Qed.

(** An integer is below a rational exactly when it is below its ceiling. *)
Lemma lt_ceiling (v : Z) (x : Q) :
  (inject_Z v < x)%Q <-> v < Qceiling x.
Proof.
  split.
  - intros H. rewrite Zlt_Qlt.
    apply Qlt_le_trans with (1 := H). apply Qle_ceiling.
  - intros H. apply Qle_lt_trans with (inject_Z (Qceiling x - 1)).
    + rewrite <- Zle_Qle. lia.
    + apply Qceiling_lt.
Qed.

Lemma lt_scaled (v : Z) (q : Q) :
  (v # 16777216 < q)%Q <-> (inject_Z v < q * inject_Z 16777216)%Q.
Proof.
  destruct q as [a b]. unfold Qlt, Qmult, inject_Z. cbn [Qnum Qden].
  rewrite Pos2Z.inj_mul. lia.
Qed.

(** On a finite probability the decision is [v < threshold prob]. *)
Lemma modify_condition_threshold (prob : float32) (v : Z) :
  valid prob -> is_finite prob = true -> 0 <= v < 2 ^ 24 ->
  modify_condition prob v = true <-> v < threshold prob.
Proof.
  intros Vp Fp Hv. rewrite (modify_condition_Q prob v Vp Fp Hv).
  unfold threshold. now rewrite lt_scaled, lt_ceiling.
Qed.

Lemma threshold_bounds (prob : float32) :
  (0 < to_Q prob <= 1)%Q -> 1 <= threshold prob <= 2 ^ 24.
Proof.
  intros [H0 H1]. unfold threshold. split.
  - assert (0 < Qceiling (to_Q prob * inject_Z 16777216)); [|lia].
    apply lt_ceiling. apply lt_scaled.
    unfold Qlt in *. cbn [Qnum Qden] in *. lia.
  - change (2 ^ 24) with (Qceiling (inject_Z 16777216)).
    apply Qceiling_resp_le.
    setoid_replace (inject_Z 16777216) with (1 * inject_Z 16777216)%Q at 2
      by (now rewrite Qmult_1_l).
    apply Qmult_le_r; [reflexivity|exact H1].
Qed.

End DecisionFacts.

(** ** Which configurations pass the check *)

(** X1: the configurations [checkConfig] accepts are exactly those with a
    positive maximal delta whose probability is a NaN or a finite value in
    (0, 1]: infinities, zeros of either sign and negative values are
    rejected, a NaN is not. *)
Theorem checkConfig_accepts_exactly (c : Config) :
  valid (ModifyResponseProbability c) ->
  let prob := ModifyResponseProbability c in
  checkConfig c = None
  <-> (is_nan prob = true
       \/ (is_finite prob = true /\ (0 < to_Q prob <= 1)%Q))
      /\ 0 < MaxIncreaseDelta c.
Proof.
  intros Vp prob. split.
  - intros Hc.
    destruct (ConfigFacts.checkConfig_None_inv c Hc) as (Hle & Hgt & HN).
    fold prob in Hle, Hgt. split; [|exact HN].
    destruct (ConfigFacts.range_tests_finite prob Hle Hgt) as [Hn|Hf];
      [now left|right].
    split; [exact Hf|].
    assert (Hnan : is_nan prob = false) by (now destruct prob).
    pose proof (ConfigFacts.not_leb_ltb prob zero Hnan eq_refl Hle) as H0.
    pose proof (ConfigFacts.not_ltb_leb prob one Hnan eq_refl Hgt) as H1.
    apply (ConfigFacts.ltb_to_Q zero prob eq_refl Vp eq_refl Hf) in H0.
    apply (ConfigFacts.leb_to_Q prob one Vp eq_refl Hf eq_refl) in H1.
    rewrite DecisionFacts.to_Q_one in H1.
    split; [exact H0|exact H1].
  - intros [Hp HN]. unfold checkConfig. fold prob.
    assert (Hle : leb prob zero = false).
    { destruct Hp as [Hn|[Hf [H0 _]]].
      - now destruct prob.
      - apply (ConfigFacts.ltb_to_Q zero prob eq_refl Vp eq_refl Hf) in H0.
        now apply ConfigFacts.ltb_not_leb. }
    assert (Hgt : gtb prob one = false).
    { destruct Hp as [Hn|[Hf [_ H1]]].
      - now destruct prob.
      - rewrite <- DecisionFacts.to_Q_one in H1.
        apply (ConfigFacts.leb_to_Q prob one Vp eq_refl Hf eq_refl) in H1.
        now apply ConfigFacts.leb_not_ltb. }
    rewrite Hle, Hgt. cbn [orb].
    destruct (Z.leb_spec (MaxIncreaseDelta c) 0); [lia|reflexivity].
Qed.

(** ** Further properties of the hook *)

Module AddFacts.

Lemma add_exact (i d : Z) : Int64.in_range (i + d) -> Int64.add i d = i + d.
Proof. intros H. unfold Int64.add. now apply Int64Facts.wrap_small. Qed.

Lemma add_add_comm (i d e : Z) :
  Int64.add (Int64.add i d) e = Int64.add (Int64.add i e) d.
Proof.
  unfold Int64.add. rewrite !Int64Facts.wrap_wrap_add_l. f_equal. lia.
Qed.

(** One step past the largest value lands at the bottom of the range. *)
Lemma add_wraps (i d : Z) :
  Int64.max_int < i + d <= Int64.max_int + 2 ^ 63 ->
  Int64.add i d = i + d - 2 ^ 64.
Proof.
  unfold Int64.add, Int64.wrap, Int64.max_int. intros H.
  replace (i + d + 2 ^ 63) with ((i + d - 2 ^ 63) + 1 * 2 ^ 64) by lia.
  rewrite Z.mod_add by lia. rewrite Z.mod_small; lia.
Qed.

End AddFacts.

Section MoreProperties.

Variable context : Type.
Variable AnnounceRequest : Type.
Variable Rest : Type.
Variable DeriveEntropyFromRequest : AnnounceRequest -> Z * Z.
Variable Intn : Z -> Z -> Z -> Z * Z * Z.

Hypothesis Intn_range : Intn_contract Intn.

Local Abbreviation announce :=
  (HandleAnnounce context AnnounceRequest Rest DeriveEntropyFromRequest Intn).
Local Abbreviation draw1 :=
  (first_draw AnnounceRequest DeriveEntropyFromRequest Intn).
Local Abbreviation draw2 :=
  (second_draw AnnounceRequest DeriveEntropyFromRequest Intn).
Local Abbreviation decides :=
  (decides_to_modify AnnounceRequest DeriveEntropyFromRequest Intn).
Local Abbreviation delta :=
  (delta_of AnnounceRequest DeriveEntropyFromRequest Intn).

(** The added duration of a valid hook below the overflow threshold. *)
Lemma delta_bounds (h : hook) (req : AnnounceRequest) :
  checkConfig (cfg h) = None ->
  MaxIncreaseDelta (cfg h) <= Duration.max_seconds ->
  Duration.Second <= delta h req
  <= MaxIncreaseDelta (cfg h) * Duration.Second
  /\ delta h req mod Duration.Second = 0.
Proof.
  intros Hc Hmax.
  destruct (ConfigFacts.checkConfig_None_inv _ Hc) as (_ & _ & HN).
  rewrite (delta_exact _ DeriveEntropyFromRequest _ Intn_range h req) by lia.
  pose proof (second_draw_range _ DeriveEntropyFromRequest _ Intn_range
                (MaxIncreaseDelta (cfg h)) req HN) as Hv.
  split; [unfold Duration.Second; lia|].
  apply Z.mod_mul. unfold Duration.Second. lia.
Qed.

(** X3: a configuration with a NaN probability and a positive maximal delta
    passes [New], and the hook it builds never modifies a response. *)
Theorem nan_probability_builds_inert_hook (c : Config) :
  is_nan (ModifyResponseProbability c) = true ->
  0 < MaxIncreaseDelta c ->
  exists h : hook,
    New c = (Some h, None)
    /\ forall ctx req resp, announce h ctx req resp = ((ctx, None), resp).
Proof.
  intros Hnan HN. exists {| cfg := c |}. split.
  - unfold New, checkConfig.
    destruct (ModifyResponseProbability c); try discriminate Hnan.
    cbn. destruct (Z.leb_spec (MaxIncreaseDelta c) 0); [lia|reflexivity].
  - intros ctx req resp. rewrite HandleAnnounce_unfold.
    unfold decides_to_modify. cbn [cfg].
    destruct (ModifyResponseProbability c); try discriminate Hnan.
    now rewrite DecisionFacts.modify_condition_nan.
Qed.

(** X4: the test [ModifyResponseProbability == 1] never changes the
    outcome: the first draw always gives [p < 1], so the decision is
    [p < ModifyResponseProbability] alone, for any probability. *)
Theorem equality_test_is_redundant (h : hook) (req : AnnounceRequest) :
  decides h req
  = ltb (probability_of (fst (fst (draw1 req))))
        (ModifyResponseProbability (cfg h)).
Proof.
  unfold decides_to_modify.
  apply DecisionFacts.modify_condition_ltb.
  apply (first_draw_range _ DeriveEntropyFromRequest _ Intn_range).
Qed.

(** X5: the decision is a threshold on the first draw: under one hook, a
    request whose draw is not larger than the draw of a modified request is
    modified as well. *)
Theorem smaller_draw_is_modified_too
    (h : hook) (req1 req2 : AnnounceRequest) :
  valid (ModifyResponseProbability (cfg h)) ->
  fst (fst (draw1 req1)) <= fst (fst (draw1 req2)) ->
  decides h req2 = true ->
  decides h req1 = true.
Proof.
  intros Vp Hle.
  pose proof (first_draw_range _ DeriveEntropyFromRequest _ Intn_range req1)
    as R1.
  pose proof (first_draw_range _ DeriveEntropyFromRequest _ Intn_range req2)
    as R2.
  unfold decides_to_modify.
  rewrite !DecisionFacts.modify_condition_ltb by assumption.
  apply DecisionFacts.ltb_probability_mono; [assumption|lia|lia].
Qed.

(** X6: raising the probability never takes a modification away: of two
    valid hooks, the one with the larger probability modifies every request
    the other one modifies. *)
Theorem larger_probability_modifies_more
    (h1 h2 : hook) (req : AnnounceRequest) :
  checkConfig (cfg h1) = None ->
  checkConfig (cfg h2) = None ->
  valid (ModifyResponseProbability (cfg h1)) ->
  valid (ModifyResponseProbability (cfg h2)) ->
  leb (ModifyResponseProbability (cfg h1))
      (ModifyResponseProbability (cfg h2)) = true ->
  decides h1 req = true ->
  decides h2 req = true.
Proof.
  intros C1 C2 V1 V2 Hle.
  destruct (DecisionFacts.leb_true_not_nan _ _ Hle) as [N1 N2].
  destruct (ConfigFacts.checkConfig_None_inv _ C1) as (L1 & G1 & _).
  destruct (ConfigFacts.checkConfig_None_inv _ C2) as (L2 & G2 & _).
  destruct (ConfigFacts.range_tests_finite _ L1 G1) as [?|F1]; [congruence|].
  destruct (ConfigFacts.range_tests_finite _ L2 G2) as [?|F2]; [congruence|].
  pose proof (first_draw_range _ DeriveEntropyFromRequest _ Intn_range req)
    as R.
  unfold decides_to_modify.
  rewrite !DecisionFacts.modify_condition_Q by assumption.
  apply (ConfigFacts.leb_to_Q _ _ V1 V2 F1 F2) in Hle.
  intros Hlt. now apply Qlt_le_trans with (1 := Hlt).
Qed.

(** X7: the two ends of the draw: under a valid hook whose probability is
    not a NaN a first draw of zero is always modified, and a first draw of
    [2^24 - 1] is modified only when the probability is exactly one. *)
Theorem extreme_draws (h : hook) (req : AnnounceRequest) :
  checkConfig (cfg h) = None ->
  valid (ModifyResponseProbability (cfg h)) ->
  is_nan (ModifyResponseProbability (cfg h)) = false ->
  (fst (fst (draw1 req)) = 0 -> decides h req = true)
  /\ (fst (fst (draw1 req)) = 2 ^ 24 - 1 ->
      (decides h req = true
       <-> eqb (ModifyResponseProbability (cfg h)) one = true)).
Proof.
  intros Hc Vp Hnan.
  destruct (ConfigFacts.checkConfig_None_inv _ Hc) as (Hle & Hgt & _).
  destruct (ConfigFacts.range_tests_finite _ Hle Hgt) as [?|Fp];
    [congruence|].
  unfold decides_to_modify. split; intros ->.
  - rewrite DecisionFacts.modify_condition_ltb by (cbn; lia).
    change (probability_of 0) with zero.
    now apply ConfigFacts.not_leb_ltb.
  - split.
    + intros Hm.
      apply (DecisionFacts.modify_condition_Q _ _ Vp Fp) in Hm;
        [|cbn; lia].
      pose proof (ConfigFacts.not_ltb_leb _ one Hnan eq_refl Hgt) as H1.
      apply (ConfigFacts.leb_to_Q _ one Vp eq_refl Fp eq_refl) in H1.
      rewrite DecisionFacts.to_Q_one in H1.
      apply (ConfigFacts.eqb_to_Q _ one Vp eq_refl Fp eq_refl).
      rewrite DecisionFacts.to_Q_one.
      now apply DecisionFacts.no_value_just_below_one.
    + intros H1. unfold modify_condition. now rewrite H1.
Qed.

(** The response of a call, field by field. *)
Lemma announce_fields (h : hook) (ctx : context) (req : AnnounceRequest)
    (resp : AnnounceResponse Rest) :
  Interval (snd (announce h ctx req resp))
  = (if decides h req
     then Int64.add (Interval resp) (delta h req)
     else Interval resp)
  /\ MinInterval (snd (announce h ctx req resp))
     = (if decides h req && ModifyMinInterval (cfg h)
        then Int64.add (MinInterval resp) (delta h req)
        else MinInterval resp).
Proof.
  rewrite HandleAnnounce_unfold. cbn [snd]. unfold apply_delta.
  now destruct (decides h req), (ModifyMinInterval (cfg h)).
Qed.

(** X8: a hook built by [New] with a maximal delta of at most 9223372036
    seconds never shortens an interval: with room for [MaxIncreaseDelta]
    more seconds, [Interval] stays or grows, by at least one second when the
    call modifies and by at most [MaxIncreaseDelta] seconds. *)
Theorem built_hook_never_shortens_the_interval
    (c : Config) (h : hook) (ctx : context) (req : AnnounceRequest)
    (resp : AnnounceResponse Rest) :
  New c = (Some h, None) ->
  MaxIncreaseDelta c <= Duration.max_seconds ->
  headroom (MaxIncreaseDelta c) (Interval resp) ->
  let out := snd (announce h ctx req resp) in
  Interval resp <= Interval out
               <= Interval resp + MaxIncreaseDelta c * Duration.Second
  /\ (decides h req = true ->
      Interval resp + Duration.Second <= Interval out)
  /\ (decides h req = false -> Interval out = Interval resp).
Proof.
  intros Hnew Hmax [Hlo Hhi] out.
  assert (Hh : cfg h = c /\ checkConfig c = None).
  { unfold New in Hnew. destruct (checkConfig c); [discriminate|].
    injection Hnew as <-. now split. }
  destruct Hh as [Hcfg Hc]. rewrite <- Hcfg in *.
  destruct (delta_bounds h req Hc Hmax) as [Hd _].
  unfold out. destruct (announce_fields h ctx req resp) as [-> _].
  destruct (decides h req).
  - rewrite AddFacts.add_exact by int64_bounds.
    repeat split; try discriminate; int64_bounds.
  - repeat split; try discriminate; int64_bounds.
Qed.

(** X9: whole seconds stay whole seconds: under a valid hook with a maximal
    delta of at most 9223372036 seconds and room for that many more seconds,
    an [Interval] and a [MinInterval] that are multiples of [time.Second]
    are so after the call. *)
Theorem whole_seconds_are_preserved
    (h : hook) (ctx : context) (req : AnnounceRequest)
    (resp : AnnounceResponse Rest) :
  checkConfig (cfg h) = None ->
  MaxIncreaseDelta (cfg h) <= Duration.max_seconds ->
  headroom (MaxIncreaseDelta (cfg h)) (Interval resp) ->
  headroom (MaxIncreaseDelta (cfg h)) (MinInterval resp) ->
  Interval resp mod Duration.Second = 0 ->
  MinInterval resp mod Duration.Second = 0 ->
  Interval (snd (announce h ctx req resp)) mod Duration.Second = 0
  /\ MinInterval (snd (announce h ctx req resp)) mod Duration.Second = 0.
Proof.
  intros Hc Hmax [Hlo Hhi] [Hlo' Hhi'] Hi Hm.
  destruct (delta_bounds h req Hc Hmax) as [Hd Hmod].
  destruct (announce_fields h ctx req resp) as [-> ->].
  assert (Hsum : forall z, z mod Duration.Second = 0 ->
                           (z + delta h req) mod Duration.Second = 0).
  { intros z Hz. rewrite Z.add_mod by (unfold Duration.Second; lia).
    rewrite Hz, Hmod. reflexivity. }
  split.
  - destruct (decides h req); [|exact Hi].
    rewrite AddFacts.add_exact by int64_bounds. now apply Hsum.
  - destruct (decides h req && ModifyMinInterval (cfg h)); [|exact Hm].
    rewrite AddFacts.add_exact by int64_bounds. now apply Hsum.
Qed.

(** X10: the order of the two intervals is kept: under a valid hook with a
    maximal delta of at most 9223372036 seconds and room for that many more
    seconds on [Interval], a response with [MinInterval <= Interval] leaves
    the call with [MinInterval <= Interval]; with [ModifyMinInterval] set,
    the distance between the two fields is unchanged. *)
Theorem interval_order_is_preserved
    (h : hook) (ctx : context) (req : AnnounceRequest)
    (resp : AnnounceResponse Rest) :
  checkConfig (cfg h) = None ->
  MaxIncreaseDelta (cfg h) <= Duration.max_seconds ->
  headroom (MaxIncreaseDelta (cfg h)) (Interval resp) ->
  Int64.min_int <= MinInterval resp <= Interval resp ->
  let out := snd (announce h ctx req resp) in
  MinInterval out <= Interval out
  /\ (ModifyMinInterval (cfg h) = true ->
      Interval out - MinInterval out = Interval resp - MinInterval resp).
Proof.
  intros Hc Hmax [Hlo Hhi] Hord out.
  destruct (delta_bounds h req Hc Hmax) as [Hd _].
  unfold out. destruct (announce_fields h ctx req resp) as [-> ->].
  destruct (decides h req), (ModifyMinInterval (cfg h)); cbn [andb];
    rewrite ?AddFacts.add_exact by int64_bounds;
    split; try discriminate; intros; int64_bounds.
Qed.

(** X11: two hooks commute: the response two hooks leave for one request
    does not depend on the order in which they are called. *)
Theorem hooks_commute
    (h1 h2 : hook) (ctx : context) (req : AnnounceRequest)
    (resp : AnnounceResponse Rest) :
  snd (announce h2 ctx req (snd (announce h1 ctx req resp)))
  = snd (announce h1 ctx req (snd (announce h2 ctx req resp))).
Proof.
  rewrite !HandleAnnounce_unfold. cbn [snd]. unfold apply_delta.
  destruct resp as [i m o].
  destruct (decides h1 req), (decides h2 req),
    (ModifyMinInterval (cfg h1)), (ModifyMinInterval (cfg h2));
    unfold add_MinInterval, add_Interval;
    cbn [Interval MinInterval OtherFields];
    try reflexivity;
    f_equal; apply AddFacts.add_add_comm.
Qed.

(** X12: the addition does not saturate: under a valid hook with a maximal
    delta of at most 9223372036 seconds, a modifying call on an [Interval]
    so large that the delta carries it past the largest [time.Duration]
    leaves a negative [Interval], [2^64] nanoseconds below the sum. *)
Theorem interval_wraps_past_the_largest_duration
    (h : hook) (ctx : context) (req : AnnounceRequest)
    (resp : AnnounceResponse Rest) :
  checkConfig (cfg h) = None ->
  MaxIncreaseDelta (cfg h) <= Duration.max_seconds ->
  Interval resp <= Int64.max_int ->
  decides h req = true ->
  Int64.max_int < Interval resp + delta h req ->
  Interval (snd (announce h ctx req resp))
  = Interval resp + delta h req - 2 ^ 64
  /\ Interval (snd (announce h ctx req resp)) < 0.
Proof.
  intros Hc Hmax Hi Hdec Hover.
  destruct (delta_bounds h req Hc Hmax) as [Hd _].
  destruct (announce_fields h ctx req resp) as [-> _]. rewrite Hdec.
  rewrite AddFacts.add_wraps by int64_bounds.
  split; [reflexivity|int64_bounds].
Qed.

(** X13: the rate of a hook: under a valid hook whose probability is not a
    NaN, a request is modified exactly when its first draw is below the
    probability times [2^24] rounded up.  This threshold lies between 1 and
    [2^24]: of the [2^24] possible draws at least one modifies, however
    small the probability. *)
Theorem modifying_draws_are_those_below_the_threshold (h : hook) :
  checkConfig (cfg h) = None ->
  valid (ModifyResponseProbability (cfg h)) ->
  is_nan (ModifyResponseProbability (cfg h)) = false ->
  1 <= threshold (ModifyResponseProbability (cfg h)) <= 2 ^ 24
  /\ forall req : AnnounceRequest,
       decides h req = true
       <-> fst (fst (draw1 req))
           < threshold (ModifyResponseProbability (cfg h)).
Proof.
  intros Hc Vp Hnan.
  destruct (ConfigFacts.checkConfig_None_inv _ Hc) as (Hle & Hgt & _).
  destruct (ConfigFacts.range_tests_finite _ Hle Hgt) as [?|Fp];
    [congruence|].
  split.
  - apply DecisionFacts.threshold_bounds.
    pose proof (ConfigFacts.not_leb_ltb _ zero Hnan eq_refl Hle) as H0.
    pose proof (ConfigFacts.not_ltb_leb _ one Hnan eq_refl Hgt) as H1.
    apply (ConfigFacts.ltb_to_Q zero _ eq_refl Vp eq_refl Fp) in H0.
    apply (ConfigFacts.leb_to_Q _ one Vp eq_refl Fp eq_refl) in H1.
    rewrite DecisionFacts.to_Q_one in H1. split; assumption.
  - intros req. unfold decides_to_modify.
    apply DecisionFacts.modify_condition_threshold; try assumption.
    apply (first_draw_range _ DeriveEntropyFromRequest _ Intn_range).
Qed.

End MoreProperties.

(** ** The further properties at the model instance *)

Lemma checkConfig_accepts_exactly_witness :
  valid (ModifyResponseProbability (Model.config Model.half 10 false))
  /\ checkConfig (Model.config Model.half 10 false) = None.
Proof.
  split; [reflexivity|].
  apply (checkConfig_accepts_exactly (Model.config Model.half 10 false)
           eq_refl).
  split; [|reflexivity]. right. split; [reflexivity|].
  split; [reflexivity|discriminate].
Defined.

Lemma nan_probability_builds_inert_hook_witness :
  is_nan (ModifyResponseProbability (cfg Model.hook_nan)) = true
  /\ 0 < MaxIncreaseDelta (cfg Model.hook_nan)
  /\ exists h : hook,
       New (cfg Model.hook_nan) = (Some h, None)
       /\ forall ctx req resp,
            Model.HandleAnnounce h ctx req resp = ((ctx, None), resp).
Proof.
  split; [reflexivity|]. split; [reflexivity|].
  exact (nan_probability_builds_inert_hook unit Model.Request unit
           Model.DeriveEntropyFromRequest Model.Intn
           (cfg Model.hook_nan) eq_refl eq_refl).
Defined.

Lemma equality_test_is_redundant_witness :
  Intn_contract Model.Intn
  /\ decides_to_modify Model.Request Model.DeriveEntropyFromRequest
       Model.Intn Model.hook_always Model.request_top
     = ltb (probability_of
              (fst (fst (first_draw Model.Request
                           Model.DeriveEntropyFromRequest Model.Intn
                           Model.request_top))))
           (ModifyResponseProbability (cfg Model.hook_always)).
Proof.
  split; [exact ModelFacts.Intn_range|].
  exact (equality_test_is_redundant Model.Request
           Model.DeriveEntropyFromRequest Model.Intn ModelFacts.Intn_range
           Model.hook_always Model.request_top).
Defined.

Lemma smaller_draw_is_modified_too_witness :
  Intn_contract Model.Intn
  /\ valid (ModifyResponseProbability (cfg Model.hook_half))
  /\ fst (fst (first_draw Model.Request Model.DeriveEntropyFromRequest
                 Model.Intn Model.request_a))
     <= fst (fst (first_draw Model.Request Model.DeriveEntropyFromRequest
                    Model.Intn Model.request_b))
  /\ decides_to_modify Model.Request Model.DeriveEntropyFromRequest
       Model.Intn Model.hook_half Model.request_b = true
  /\ decides_to_modify Model.Request Model.DeriveEntropyFromRequest
       Model.Intn Model.hook_half Model.request_a = true.
Proof.
  split; [exact ModelFacts.Intn_range|]. split; [reflexivity|].
  split; [vm_compute; discriminate|]. split; [vm_compute; reflexivity|].
  apply (smaller_draw_is_modified_too Model.Request
           Model.DeriveEntropyFromRequest Model.Intn ModelFacts.Intn_range
           Model.hook_half Model.request_a Model.request_b).
  - reflexivity.
  - vm_compute; discriminate.
  - vm_compute; reflexivity.
Defined.

Lemma larger_probability_modifies_more_witness :
  Intn_contract Model.Intn
  /\ checkConfig (cfg Model.hook_half) = None
  /\ checkConfig (cfg Model.hook_always) = None
  /\ valid (ModifyResponseProbability (cfg Model.hook_half))
  /\ valid (ModifyResponseProbability (cfg Model.hook_always))
  /\ leb (ModifyResponseProbability (cfg Model.hook_half))
         (ModifyResponseProbability (cfg Model.hook_always)) = true
  /\ decides_to_modify Model.Request Model.DeriveEntropyFromRequest
       Model.Intn Model.hook_half Model.request_b = true
  /\ decides_to_modify Model.Request Model.DeriveEntropyFromRequest
       Model.Intn Model.hook_always Model.request_b = true.
Proof.
  split; [exact ModelFacts.Intn_range|].
  do 5 (split; [reflexivity|]). split; [vm_compute; reflexivity|].
  apply (larger_probability_modifies_more Model.Request
           Model.DeriveEntropyFromRequest Model.Intn ModelFacts.Intn_range
           Model.hook_half Model.hook_always Model.request_b);
    reflexivity.
Defined.

Lemma extreme_draws_witness :
  checkConfig (cfg Model.hook_half) = None
  /\ valid (ModifyResponseProbability (cfg Model.hook_half))
  /\ is_nan (ModifyResponseProbability (cfg Model.hook_half)) = false
  /\ fst (fst (first_draw Model.Request Model.DeriveEntropyFromRequest
                 Model.Intn Model.request_zero)) = 0
  /\ decides_to_modify Model.Request Model.DeriveEntropyFromRequest
       Model.Intn Model.hook_half Model.request_zero = true.
Proof.
  do 3 (split; [reflexivity|]). split; [reflexivity|].
  exact (proj1 (extreme_draws Model.Request Model.DeriveEntropyFromRequest
                  Model.Intn Model.hook_half
                  Model.request_zero eq_refl eq_refl eq_refl) eq_refl).
Defined.

Lemma built_hook_never_shortens_the_interval_witness :
  Intn_contract Model.Intn
  /\ New (cfg Model.hook_always) = (Some Model.hook_always, None)
  /\ MaxIncreaseDelta (cfg Model.hook_always) <= Duration.max_seconds
  /\ headroom (MaxIncreaseDelta (cfg Model.hook_always)) 1800000000000
  /\ 1800000000000
     <= Interval (snd (Model.HandleAnnounce Model.hook_always tt
                         Model.request_a
                         (Model.response 1800000000000 900000000000)))
     <= 1800000000000 + 5 * Duration.Second.
Proof.
  split; [exact ModelFacts.Intn_range|]. split; [reflexivity|].
  split; [vm_compute; discriminate|].
  assert (Hroom : headroom (MaxIncreaseDelta (cfg Model.hook_always))
                    1800000000000)
    by (split; vm_compute; discriminate).
  split; [exact Hroom|].
  apply (built_hook_never_shortens_the_interval unit Model.Request unit
           Model.DeriveEntropyFromRequest Model.Intn ModelFacts.Intn_range
           (cfg Model.hook_always) Model.hook_always tt Model.request_a
           (Model.response 1800000000000 900000000000) eq_refl).
  - vm_compute; discriminate.
  - exact Hroom.
Defined.

Lemma whole_seconds_are_preserved_witness :
  Intn_contract Model.Intn
  /\ checkConfig (cfg Model.hook_always) = None
  /\ MaxIncreaseDelta (cfg Model.hook_always) <= Duration.max_seconds
  /\ headroom (MaxIncreaseDelta (cfg Model.hook_always)) 1800000000000
  /\ headroom (MaxIncreaseDelta (cfg Model.hook_always)) 900000000000
  /\ 1800000000000 mod Duration.Second = 0
  /\ 900000000000 mod Duration.Second = 0
  /\ Interval (snd (Model.HandleAnnounce Model.hook_always tt
                      Model.request_a
                      (Model.response 1800000000000 900000000000)))
     mod Duration.Second = 0
  /\ MinInterval (snd (Model.HandleAnnounce Model.hook_always tt
                         Model.request_a
                         (Model.response 1800000000000 900000000000)))
     mod Duration.Second = 0.
Proof.
  assert (H1 : headroom (MaxIncreaseDelta (cfg Model.hook_always))
                 1800000000000)
    by (split; vm_compute; discriminate).
  assert (H2 : headroom (MaxIncreaseDelta (cfg Model.hook_always))
                 900000000000)
    by (split; vm_compute; discriminate).
  split; [exact ModelFacts.Intn_range|]. split; [reflexivity|].
  split; [vm_compute; discriminate|].
  split; [exact H1|]. split; [exact H2|].
  split; [reflexivity|]. split; [reflexivity|].
  apply (whole_seconds_are_preserved unit Model.Request unit
           Model.DeriveEntropyFromRequest Model.Intn ModelFacts.Intn_range
           Model.hook_always tt Model.request_a
           (Model.response 1800000000000 900000000000) eq_refl);
    try assumption; try reflexivity.
  vm_compute; discriminate.
Defined.

Lemma interval_order_is_preserved_witness :
  Intn_contract Model.Intn
  /\ checkConfig (cfg Model.hook_half) = None
  /\ MaxIncreaseDelta (cfg Model.hook_half) <= Duration.max_seconds
  /\ headroom (MaxIncreaseDelta (cfg Model.hook_half)) 1800000000000
  /\ Int64.min_int <= 900000000000 <= 1800000000000
  /\ MinInterval (snd (Model.HandleAnnounce Model.hook_half tt
                         Model.request_b
                         (Model.response 1800000000000 900000000000)))
     <= Interval (snd (Model.HandleAnnounce Model.hook_half tt
                         Model.request_b
                         (Model.response 1800000000000 900000000000))).
Proof.
  assert (H1 : headroom (MaxIncreaseDelta (cfg Model.hook_half))
                 1800000000000)
    by (split; vm_compute; discriminate).
  assert (H2 : Int64.min_int <= 900000000000 <= 1800000000000)
    by (split; vm_compute; discriminate).
  split; [exact ModelFacts.Intn_range|]. split; [reflexivity|].
  split; [vm_compute; discriminate|].
  split; [exact H1|]. split; [exact H2|].
  apply (interval_order_is_preserved unit Model.Request unit
           Model.DeriveEntropyFromRequest Model.Intn ModelFacts.Intn_range
           Model.hook_half tt Model.request_b
           (Model.response 1800000000000 900000000000) eq_refl);
    try assumption.
  vm_compute; discriminate.
Defined.

Lemma interval_wraps_past_the_largest_duration_witness :
  Intn_contract Model.Intn
  /\ checkConfig (cfg Model.hook_always) = None
  /\ MaxIncreaseDelta (cfg Model.hook_always) <= Duration.max_seconds
  /\ Int64.max_int - 10 <= Int64.max_int
  /\ decides_to_modify Model.Request Model.DeriveEntropyFromRequest
       Model.Intn Model.hook_always Model.request_a = true
  /\ Int64.max_int
     < Int64.max_int - 10
       + delta_of Model.Request Model.DeriveEntropyFromRequest Model.Intn
           Model.hook_always Model.request_a
  /\ Interval (snd (Model.HandleAnnounce Model.hook_always tt
                      Model.request_a
                      (Model.response (Int64.max_int - 10) 0))) < 0.
Proof.
  split; [exact ModelFacts.Intn_range|]. split; [reflexivity|].
  split; [vm_compute; discriminate|]. split; [vm_compute; discriminate|].
  split; [vm_compute; reflexivity|]. split; [vm_compute; reflexivity|].
  apply (interval_wraps_past_the_largest_duration unit Model.Request unit
           Model.DeriveEntropyFromRequest Model.Intn ModelFacts.Intn_range
           Model.hook_always tt Model.request_a
           (Model.response (Int64.max_int - 10) 0) eq_refl).
  - vm_compute; discriminate.
  - vm_compute; discriminate.
  - vm_compute; reflexivity.
  - vm_compute; reflexivity.
Defined.

Lemma modifying_draws_are_those_below_the_threshold_witness :
  Intn_contract Model.Intn
  /\ checkConfig (cfg Model.hook_half) = None
  /\ valid (ModifyResponseProbability (cfg Model.hook_half))
  /\ is_nan (ModifyResponseProbability (cfg Model.hook_half)) = false
  /\ threshold (ModifyResponseProbability (cfg Model.hook_half)) = 8388608
  /\ (decides_to_modify Model.Request Model.DeriveEntropyFromRequest
        Model.Intn Model.hook_half Model.request_d = true
      <-> fst (fst (first_draw Model.Request Model.DeriveEntropyFromRequest
                      Model.Intn Model.request_d))
          < threshold (ModifyResponseProbability (cfg Model.hook_half))).
Proof.
  split; [exact ModelFacts.Intn_range|].
  do 3 (split; [reflexivity|]). split; [vm_compute; reflexivity|].
  apply (modifying_draws_are_those_below_the_threshold Model.Request
           Model.DeriveEntropyFromRequest Model.Intn ModelFacts.Intn_range
           Model.hook_half eq_refl eq_refl eq_refl).
Defined.

(** The bound of [2^55] seconds is the least one: with
    [MaxIncreaseDelta = 2^55] the same request already draws [2^55 - 1] and
    the response comes back as it was. *)
Example max_delta_bound_is_tight :
  checkConfig (Model.config one (2 ^ 55) false) = None
  /\ Model.HandleAnnounce {| cfg := Model.config one (2 ^ 55) false |} tt
       Model.request_e (Model.response 1800000000000 900000000000)
     = ((tt, None), Model.response 1800000000000 900000000000).
Proof. split; vm_compute; reflexivity. Qed.
